(** * traitsui/qt4/tabular_editor.py: the tabular editor's glue logic

    A shallow embedding of the editor ([TabularEditor]) and of its table
    view ([_TableView]).  The editor is a record of its traits, the view a
    record of its two private attributes together with the part of the
    toolkit widget the code reads back (section sizes, selected rows,
    viewport width, size hints).  Methods are computations in a small monad
    that threads the editor, may raise a Python exception and emits the
    calls made on the widget, the selection model and the table model. *)

From Stdlib Require Import ZArith QArith Qround.
From stdpp Require Import base option list gmap strings sorting.

Close Scope Q_scope.
Open Scope Z_scope.

(** ** Exceptions and results *)

Inductive Exn : Type :=
  | ValueError
  | IndexError
  | AttributeError
  | TraitError
  | RecursionError
  | Failure (msg : string).

Inductive Res (A : Type) : Type :=
  | Ok (a : A)
  | Raise (e : Exn).
Arguments Ok {A} a.
Arguments Raise {A} e.

(** ** Toolkit vocabulary *)

Inductive SelectionFlags : Type :=
  | ClearAndSelect_Rows   (* ClearAndSelect | Rows *)
  | Select_Rows           (* Select | Rows *)
  | Deselect_Rows.        (* Deselect | Rows *)

Inductive ScrollHint : Type :=
  | PositionAtCenter
  | PositionAtTop
  | PositionAtBottom
  | EnsureVisible.

Inductive Key : Type :=
  | Key_Enter
  | Key_Return
  | Key_Backspace
  | Key_Delete
  | Key_Insert
  | Key_Other (code : Z).

(** A menu supplied by the adapter.  Executing it runs the toolkit's nested
    event loop and the chosen action, which is user code and may raise. *)
Record Menu : Type := {
  menu_label : string;
  exec_raises : option Exn;
}.

(** The dictionary stored in [_menu_context] by the column context menu.
    Its other entries (selection, object, editor, info, handler) are fixed
    references; the column is the entry that varies. *)
Record MenuContext : Type := {
  context_column : Z;
}.

Record TabularEditorEvent : Type := {
  row : Z;
  column : Z;
}.

Record TraitListEvent (A : Type) : Type := {
  index : Z;
  added : list A;
  removed : list A;
}.
Arguments index {A} _.
Arguments added {A} _.
Arguments removed {A} _.

(** The calls the editor and the view make on the toolkit: on the selection
    model, the view, the table model, the key event and a menu.  A call is
    recorded in the order it is made.  What the toolkit does in response
    inside the call (the selection model emitting its selection signal to
    [_on_row_selection] after [select], the view scrolling) is not run: the
    slots are methods of their own, and the editor a method returns is the
    editor as the method's own statements leave it. *)
Inductive Call : Type :=
  | clearSelection
  | select (r c : Z) (flags : SelectionFlags)
  | select_selection (rows : list Z) (flags : SelectionFlags)
  | scrollTo (r c : Z) (hint : ScrollHint)
  | removeRow (r : Z)
  | insertRow (r : Z)
  | edit (r c : Z)
  | setCurrentIndex (r c : Z)
  | accept
  | QTableView_keyPressEvent (k : Key)
  | create_menu (m : Menu)
  | exec_ (m : Menu) (pos : Z * Z) (context : option MenuContext).

Definition SCROLL_TO_POSITION_HINT_MAP : gmap string ScrollHint :=
  <["center" := PositionAtCenter]>
  (<["top" := PositionAtTop]>
  (<["bottom" := PositionAtBottom]>
  (<["visible" := EnsureVisible]> ∅))).

(** ** The editor factory, the adapter, the view and the editor *)

Record Factory : Type := {
  multi_select : bool;
  editable : bool;
  auto_resize : bool;
  operations : list string;
  scroll_to_position_hint : string;
}.

Section Model.

Context {Item : Type}.

(** The adapter is user supplied: its methods are functions of the edited
    list and of the row or column.  [get_item] is user code that may raise. *)
Record TabularAdapter : Type := {
  columns : list string;
  get_width : nat -> Q;
  get_item : list Item -> Z -> Res (option Item);
  get_column_menu : Z -> Z -> option Menu;
  len : list Item -> Z;
}.

(** [_TableView]: the attributes [_user_widths] and [_is_resizing] of the
    class, and the state of the toolkit widget that the code reads. *)
Record TableView : Type := {
  _user_widths : option (list (option Z));
  _is_resizing : bool;
  (* horizontalHeader(): size of each section *)
  section_sizes : list Z;
  (* horizontalHeader().sectionSizeHint(column) *)
  sectionSizeHint : nat -> Z;
  (* QTableView.sizeHintForColumn(column), the toolkit's own *)
  QTableView_sizeHintForColumn : nat -> Z;
  (* the widths QTableView.resizeColumnsToContents() gives the columns *)
  QTableView_contents_widths : list Z;
  (* viewport().width() *)
  viewport_width : Z;
  (* selectionModel().selectedRows(), as row numbers *)
  selectedRows : list Z;
  (* columnAt(x) *)
  columnAt : Z -> Z;
  (* mapToGlobal(pos) - pos *)
  global_origin : Z * Z;
  (* state() == EditingState *)
  editing : bool;
}.

Record TabularEditor : Type := {
  factory : option Factory;
  adapter : TabularAdapter;
  (* the edited list, [self.value] *)
  value : list Item;
  selected : option Item;
  multi_selected : list Item;
  selected_row : Z;
  multi_selected_rows : list Z;
  selected_column : Z;
  column_right_clicked : option TabularEditorEvent;
  _no_update : bool;
  _no_notify : bool;
  _menu_context : option MenuContext;
  control : TableView;
}.

(** Attribute writes. *)

Definition with_user_widths (u : option (list (option Z))) (v : TableView) : TableView :=
  {| _user_widths := u; _is_resizing := _is_resizing v;
     section_sizes := section_sizes v; sectionSizeHint := sectionSizeHint v;
     QTableView_sizeHintForColumn := QTableView_sizeHintForColumn v;
     QTableView_contents_widths := QTableView_contents_widths v;
     viewport_width := viewport_width v; selectedRows := selectedRows v;
     columnAt := columnAt v; global_origin := global_origin v;
     editing := editing v |}.

Definition with_is_resizing (b : bool) (v : TableView) : TableView :=
  {| _user_widths := _user_widths v; _is_resizing := b;
     section_sizes := section_sizes v; sectionSizeHint := sectionSizeHint v;
     QTableView_sizeHintForColumn := QTableView_sizeHintForColumn v;
     QTableView_contents_widths := QTableView_contents_widths v;
     viewport_width := viewport_width v; selectedRows := selectedRows v;
     columnAt := columnAt v; global_origin := global_origin v;
     editing := editing v |}.

Definition with_section_sizes (l : list Z) (v : TableView) : TableView :=
  {| _user_widths := _user_widths v; _is_resizing := _is_resizing v;
     section_sizes := l; sectionSizeHint := sectionSizeHint v;
     QTableView_sizeHintForColumn := QTableView_sizeHintForColumn v;
     QTableView_contents_widths := QTableView_contents_widths v;
     viewport_width := viewport_width v; selectedRows := selectedRows v;
     columnAt := columnAt v; global_origin := global_origin v;
     editing := editing v |}.

Definition with_control (v : TableView) (e : TabularEditor) : TabularEditor :=
  {| factory := factory e; adapter := adapter e; value := value e;
     selected := selected e; multi_selected := multi_selected e;
     selected_row := selected_row e;
     multi_selected_rows := multi_selected_rows e;
     selected_column := selected_column e;
     column_right_clicked := column_right_clicked e;
     _no_update := _no_update e; _no_notify := _no_notify e;
     _menu_context := _menu_context e; control := v |}.

Definition with_selected (x : option Item) (e : TabularEditor) : TabularEditor :=
  {| factory := factory e; adapter := adapter e; value := value e;
     selected := x; multi_selected := multi_selected e;
     selected_row := selected_row e;
     multi_selected_rows := multi_selected_rows e;
     selected_column := selected_column e;
     column_right_clicked := column_right_clicked e;
     _no_update := _no_update e; _no_notify := _no_notify e;
     _menu_context := _menu_context e; control := control e |}.

Definition with_selected_row (r : Z) (e : TabularEditor) : TabularEditor :=
  {| factory := factory e; adapter := adapter e; value := value e;
     selected := selected e; multi_selected := multi_selected e;
     selected_row := r;
     multi_selected_rows := multi_selected_rows e;
     selected_column := selected_column e;
     column_right_clicked := column_right_clicked e;
     _no_update := _no_update e; _no_notify := _no_notify e;
     _menu_context := _menu_context e; control := control e |}.

Definition with_column_right_clicked (ev : option TabularEditorEvent)
    (e : TabularEditor) : TabularEditor :=
  {| factory := factory e; adapter := adapter e; value := value e;
     selected := selected e; multi_selected := multi_selected e;
     selected_row := selected_row e;
     multi_selected_rows := multi_selected_rows e;
     selected_column := selected_column e;
     column_right_clicked := ev;
     _no_update := _no_update e; _no_notify := _no_notify e;
     _menu_context := _menu_context e; control := control e |}.

Definition with_no_update (b : bool) (e : TabularEditor) : TabularEditor :=
  {| factory := factory e; adapter := adapter e; value := value e;
     selected := selected e; multi_selected := multi_selected e;
     selected_row := selected_row e;
     multi_selected_rows := multi_selected_rows e;
     selected_column := selected_column e;
     column_right_clicked := column_right_clicked e;
     _no_update := b; _no_notify := _no_notify e;
     _menu_context := _menu_context e; control := control e |}.

Definition with_no_notify (b : bool) (e : TabularEditor) : TabularEditor :=
  {| factory := factory e; adapter := adapter e; value := value e;
     selected := selected e; multi_selected := multi_selected e;
     selected_row := selected_row e;
     multi_selected_rows := multi_selected_rows e;
     selected_column := selected_column e;
     column_right_clicked := column_right_clicked e;
     _no_update := _no_update e; _no_notify := b;
     _menu_context := _menu_context e; control := control e |}.

Definition with_menu_context (c : option MenuContext) (e : TabularEditor) : TabularEditor :=
  {| factory := factory e; adapter := adapter e; value := value e;
     selected := selected e; multi_selected := multi_selected e;
     selected_row := selected_row e;
     multi_selected_rows := multi_selected_rows e;
     selected_column := selected_column e;
     column_right_clicked := column_right_clicked e;
     _no_update := _no_update e; _no_notify := _no_notify e;
     _menu_context := c; control := control e |}.

(** ** The monad of methods

    A method takes the editor and gives its result (a value or a raised
    exception), the editor afterwards and the toolkit calls it made, in
    order.  As in Python, the attribute writes and calls made before an
    exception is raised stay made. *)

Definition M (A : Type) : Type :=
  TabularEditor -> Res A * TabularEditor * list Call.

Definition ret {A} (a : A) : M A := fun s => (Ok a, s, []).

Definition bind {A B} (m : M A) (k : A -> M B) : M B :=
  fun s =>
    match m s with
    | (Ok a, s1, t1) =>
        match k a s1 with (r, s2, t2) => (r, s2, t1 ++ t2) end
    | (Raise e, s1, t1) => (Raise e, s1, t1)
    end.

Definition raise {A} (e : Exn) : M A := fun s => (Raise e, s, []).
Definition lift {A} (r : Res A) : M A := fun s => (r, s, []).
Definition gets {A} (f : TabularEditor -> A) : M A := fun s => (Ok (f s), s, []).
Definition modify (f : TabularEditor -> TabularEditor) : M unit :=
  fun s => (Ok tt, f s, []).
Definition call (c : Call) : M unit := fun s => (Ok tt, s, [c]).

(** [try: body finally: final] *)
Definition try_finally {A} (body : M A) (final : M unit) : M A :=
  fun s =>
    match body s with
    | (r, s1, t1) =>
        match final s1 with
        | (Ok _, s2, t2) => (r, s2, t1 ++ t2)
        | (Raise e, s2, t2) => (Raise e, s2, t1 ++ t2)
        end
    end.

(** [try: body except: handler else: orelse] *)
Definition try_except_else {A B} (body : M A) (handler : Exn -> M B)
    (orelse : A -> M B) : M B :=
  fun s =>
    match body s with
    | (Ok a, s1, t1) =>
        match orelse a s1 with (r, s2, t2) => (r, s2, t1 ++ t2) end
    | (Raise e, s1, t1) =>
        match handler e s1 with (r, s2, t2) => (r, s2, t1 ++ t2) end
    end.

Fixpoint for_each {A} (l : list A) (body : A -> M unit) : M unit :=
  match l with
  | [] => ret tt
  | x :: l' => bind (body x) (fun _ => for_each l' body)
  end.

(** A list comprehension whose element expression may raise. *)
Fixpoint comprehension {A B} (f : A -> M B) (l : list A) : M (list B) :=
  match l with
  | [] => ret []
  | x :: l' =>
      bind (f x) (fun y => bind (comprehension f l') (fun ys => ret (y :: ys)))
  end.

(** Projections of a run. *)
Definition result {A} (o : Res A * TabularEditor * list Call) : Res A := o.1.1.
Definition after {A} (o : Res A * TabularEditor * list Call) : TabularEditor := o.1.2.
Definition calls {A} (o : Res A * TabularEditor * list Call) : list Call := o.2.

End Model.

Arguments TabularAdapter Item : clear implicits.
Arguments TabularEditor Item : clear implicits.
Arguments M Item A : clear implicits.

Declare Scope method_scope.
Delimit Scope method_scope with method.
Notation "x <- m ;; k" := (bind m (fun x => k))
  (at level 100, m at next level, right associativity) : method_scope.
Notation "m ;; k" := (bind m (fun _ => k))
  (at level 100, right associativity) : method_scope.

Local Open Scope method_scope.

(** ** Names imported from the rest of the package

    [raise_to_debug] (traitsui.api) is called inside an [except] clause with
    the caught exception active: it either returns or raises.
    [compute_column_widths] (traitsui.helper) takes the available space, the
    requested widths, the minimum widths and the user widths.  The table
    model's [removeRow] and [insertRow] (.tabular_model) act on the editor
    through the adapter. *)
Class Imports (Item : Type) : Type := {
  raise_to_debug : Exn -> Res unit;
  compute_column_widths :
    Z -> list Q -> list Q -> option (list (option Z)) -> list Z;
  TabularModel_removeRow : Z -> TabularEditor Item -> TabularEditor Item;
  TabularModel_insertRow : Z -> TabularEditor Item -> TabularEditor Item;
}.

Section Methods.

Context {Item : Type} {Item_eq : EqDecision Item} {imports : Imports Item}.

Local Abbreviation Method := (M Item).

(** *** Python helpers *)

(** [values.index(x)]: the first position holding a value equal to [x],
    [ValueError] when there is none. *)
Definition list_index (values : list Item) (x : Item) : Res Z :=
  match list_find (fun y => y = x) values with
  | Some (i, _) => Ok (Z.of_nat i)
  | None => Raise ValueError
  end.

(** [l[i] = x] *)
Definition setitem {A} (l : list A) (i : nat) (x : A) : Res (list A) :=
  if decide (i < length l)%nat then Ok (<[i := x]> l) else Raise IndexError.

(** [l[i]] *)
Definition getitem {A} (l : list A) (i : nat) : Res A :=
  match l !! i with
  | Some x => Ok x
  | None => Raise IndexError
  end.

Definition enumerate {A} (l : list A) : list (nat * A) := imap pair l.

(** [reversed(sorted(rows))] *)
Definition reversed_sorted (rows : list Z) : list Z :=
  reverse (merge_sort Z.le rows).

(** [width > 1] on numbers *)
Definition Qgtb (x y : Q) : bool := negb (Qle_bool x y).

(** [self.factory.attribute]: an [AttributeError] once the factory is gone. *)
Definition get_factory : Method Factory :=
  fac <- gets factory;;
  match fac with
  | Some f => ret f
  | None => raise AttributeError
  end.

(** *** TabularEditor.callx, TabularEditor.setx *)

Definition callx {A} (func : Method A) : Method unit :=
  old <- gets _no_update;;
  modify (with_no_update true);;
  try_finally (func;; ret tt) (modify (with_no_update old)).

Section Setx.

(** [setattr(self, name, value)] belongs to the attribute framework: it
    validates, writes, notifies listeners, and may raise. *)
Context {Value : Type} (setattr : string -> Value -> Method unit).

Definition setx (keywords : list (string * Value)) : Method unit :=
  old <- gets _no_notify;;
  modify (with_no_notify true);;
  try_finally
    (for_each keywords (fun kv => setattr kv.1 kv.2))
    (modify (with_no_notify old)).

End Setx.

(** *** Trait event handlers *)

Definition _scroll_to_row_changed (row : Z) : Method unit :=
  f <- get_factory;;
  let scroll_hint :=
    default EnsureVisible
      (SCROLL_TO_POSITION_HINT_MAP !! scroll_to_position_hint f) in
  col <- gets selected_column;;
  call (scrollTo row (Z.max col 0) scroll_hint).

(** [scroll_to_row] is an event trait: assigning it runs its handler. *)
Definition set_scroll_to_row (row : Z) : Method unit :=
  _scroll_to_row_changed row.

Definition _selected_row_changed (selected_row : Z) : Method unit :=
  no_update <- gets _no_update;;
  if negb no_update then
    if selected_row <? 0 then call clearSelection
    else
      col <- gets selected_column;;
      call (select selected_row (Z.max col 0) ClearAndSelect_Rows);;
      set_scroll_to_row selected_row
  else ret tt.

Definition _selected_changed (new : option Item) : Method unit :=
  no_update <- gets _no_update;;
  if negb no_update then
    match new with
    | None => _selected_row_changed (-1)
    | Some new =>
        try_except_else
          (values <- gets value;; lift (list_index values new))
          (fun e => lift (raise_to_debug e))
          (fun selected_row => _selected_row_changed selected_row)
    end
  else ret tt.

Definition _multi_selected_rows_changed (selected_rows : list Z) : Method unit :=
  no_update <- gets _no_update;;
  if negb no_update then
    call clearSelection;;
    call (select_selection selected_rows Select_Rows)
  else ret tt.

Definition _multi_selected_rows_items_changed (event : TraitListEvent Z)
    : Method unit :=
  no_update <- gets _no_update;;
  if negb no_update then
    for_each (removed event) (fun row => call (select row 0 Deselect_Rows));;
    for_each (added event) (fun row => call (select row 0 Select_Rows))
  else ret tt.

Definition _multi_selected_changed (new : list Item) : Method unit :=
  no_update <- gets _no_update;;
  if negb no_update then
    values <- gets value;;
    try_except_else
      (comprehension (fun i => lift (list_index values i)) new)
      (fun _ => ret tt)
      (fun rows => _multi_selected_rows_changed rows)
  else ret tt.

Definition _multi_selected_items_changed (event : TraitListEvent Item)
    : Method unit :=
  values <- gets value;;
  try_except_else
    (added <- comprehension (fun item => lift (list_index values item))
                (added event);;
     removed <- comprehension (fun item => lift (list_index values item))
                  (removed event);;
     ret (added, removed))
    (fun _ => ret tt)
    (fun ar =>
       let list_event := {| index := 0; added := ar.1; removed := ar.2 |} in
       _multi_selected_rows_items_changed list_event).

(** Assignment to a trait with a handler in this class: the value is
    written and, when it differs from the old one, the handler runs.  The
    assignment itself does not fail: an exception the handler raises is
    caught and logged where the handler is notified, so what the handler
    did before raising stays done and the assignment returns. *)
Definition notify (handler : Method unit) : Method unit :=
  try_except_else handler (fun _ => ret tt) (fun _ => ret tt).

Definition set_selected_row (new : Z) : Method unit :=
  old <- gets selected_row;;
  modify (with_selected_row new);;
  if decide (old = new) then ret tt else notify (_selected_row_changed new).

Definition set_selected (new : option Item) : Method unit :=
  old <- gets selected;;
  modify (with_selected new);;
  if decide (old = new) then ret tt else notify (_selected_changed new).

(** *** Table control event handlers *)

Definition _on_column_right_click (column : Z) : Method unit :=
  let event := {| row := 0; column := column |} in
  modify (with_column_right_clicked (Some event)).

Definition _on_row_selection : Method unit :=
  modify (with_no_update true);;
  try_finally
    (indexes <- gets (fun e => selectedRows (control e));;
     match indexes with
     | first :: _ =>
         set_selected_row first;;
         a <- gets adapter;;
         values <- gets value;;
         r <- gets selected_row;;
         item <- lift (get_item a values r);;
         set_selected item
     | [] =>
         set_selected_row (-1);;
         set_selected None
     end)
    (modify (with_no_update false)).

Definition mapToGlobal (v : @TableView) (pos : Z * Z) : Z * Z :=
  (pos.1 + (global_origin v).1, pos.2 + (global_origin v).2).

Definition menu_exec_ (qmenu : Menu) (pos : Z * Z) : Method unit :=
  context <- gets _menu_context;;
  call (exec_ qmenu pos context);;
  match exec_raises qmenu with
  | Some e => raise e
  | None => ret tt
  end.

Definition _on_column_context_menu (pos : Z * Z) : Method unit :=
  v <- gets control;;
  let column := columnAt v pos.1 in
  a <- gets adapter;;
  match get_column_menu a (-1) column with
  | Some menu =>
      modify (with_menu_context (Some {| context_column := column |}));;
      call (create_menu menu);;
      v' <- gets control;;
      menu_exec_ menu (mapToGlobal v' pos);;
      modify (with_menu_context None)
  | None =>
      _on_column_right_click column
  end.

(** *** _TableView

    The horizontal header keeps one size per section.  The toolkit's
    [resizeSection(logical, size)] ignores a section the header does not
    have and a size equal to the current one; otherwise it stores the size
    and emits [sectionResized(logical, old, new)].  The constructor of the
    view connects [columnResized] to that signal, so the slot runs inside
    the call, and an exception of the slot leaves through it.  The slot is a
    parameter here and is tied to [columnResized] below.

    This header stores the size it is given.  The toolkit's header has
    settings of its own that this file does not read (a minimum section
    size, the stretching of the last section that the constructor sets from
    the factory, the range of sizes it accepts), and with them the size
    stored can differ from the size given.  What is stated of the widths
    the methods hand to the header is therefore stated for every header
    operation ([resizeColumnsToContents_with]); a statement that reads a
    width back reads it from this header. *)

Definition write_section_sizes (l : list Z) : Method unit :=
  modify (fun e => with_control (with_section_sizes l (control e)) e).

Definition write_user_widths (u : option (list (option Z))) : Method unit :=
  modify (fun e => with_control (with_user_widths u (control e)) e).

Definition write_is_resizing (b : bool) : Method unit :=
  modify (fun e => with_control (with_is_resizing b (control e)) e).

Definition resizeSection (sectionResized : nat -> Z -> Z -> Method unit)
    (logical : nat) (size : Z) : Method unit :=
  sizes <- gets (fun e => section_sizes (control e));;
  match sizes !! logical with
  | None => ret tt
  | Some old =>
      if decide (old = size) then ret tt
      else
        write_section_sizes (<[logical := size]> sizes);;
        sectionResized logical old size
  end.

(** [columnWidth(column)]: the section's size, 0 for no such section. *)
Definition columnWidth (v : @TableView) (column : nat) : Z :=
  default 0 (section_sizes v !! column).

(** [with self._resizing(): body] *)
Definition _resizing {A} (body : Method A) : Method A :=
  write_is_resizing true;;
  try_finally body (write_is_resizing false).

Definition sizeHintForColumn (column : nat) : Method Q :=
  f <- get_factory;;
  if auto_resize f then
    v <- gets control;;
    ret (inject_Z (QTableView_sizeHintForColumn v column))
  else
    a <- gets adapter;;
    let width := get_width a column in
    if Qgtb width 1 then ret width
    else
      v <- gets control;;
      ret (inject_Z (sectionSizeHint v column)).

Definition resizeColumnsToContents_with
    (resizeSection : nat -> Z -> Method unit) : Method unit :=
  a <- gets adapter;;
  f <- get_factory;;
  if auto_resize f then
    (* super().resizeColumnsToContents() *)
    contents <- gets (fun e => QTableView_contents_widths (control e));;
    for_each (enumerate contents) (fun cw => resizeSection cw.1 cw.2)
  else
    available_space <- gets (fun e => viewport_width (control e));;
    pairs <- comprehension
               (fun column =>
                  let width := get_width a column in
                  hint <- sizeHintForColumn column;;
                  ret (width, hint))
               (seq 0 (length (columns a)));;
    let requested := pairs.*1 in
    let min_widths := pairs.*2 in
    user_widths <- gets (fun e => _user_widths (control e));;
    let widths :=
      compute_column_widths available_space requested min_widths user_widths in
    _resizing
      (for_each (enumerate widths) (fun cw => resizeSection cw.1 cw.2)).

(** [columnResized], the slot of [sectionResized].  [depth] bounds the
    nesting of slot calls, as the interpreter's recursion limit does. *)
Fixpoint columnResized (depth : nat) (index : nat) (old new : Z)
    : Method unit :=
  match depth with
  | O => raise RecursionError
  | S depth' =>
      resizing <- gets (fun e => _is_resizing (control e));;
      if negb resizing then
        user_widths <- gets (fun e => _user_widths (control e));;
        (match user_widths with
         | None =>
             a <- gets adapter;;
             write_user_widths (Some (replicate (length (columns a)) None))
         | Some _ => ret tt
         end);;
        user_widths <- gets (fun e => _user_widths (control e));;
        updated <- lift (setitem (default [] user_widths) index (Some new));;
        write_user_widths (Some updated);;
        fac <- gets factory;;
        match fac with
        | Some f =>
            if negb (auto_resize f) then
              resizeColumnsToContents_with
                (resizeSection (columnResized depth'))
            else ret tt
        | None => ret tt
        end
      else ret tt
  end.

Definition header_resizeSection (depth : nat) : nat -> Z -> Method unit :=
  resizeSection (columnResized depth).

Definition resizeColumnsToContents (depth : nat) : Method unit :=
  resizeColumnsToContents_with (header_resizeSection depth).

(** The toolkit's [setColumnWidth(column, width)]: it resizes the section of
    the horizontal header, with the signal that comes with it. *)
Definition setColumnWidth (depth : nat) (column : nat) (width : Z)
    : Method unit :=
  header_resizeSection depth column width.

(** *** Preferences *)

Definition save_prefs (e : TabularEditor Item) : gmap string (list Z) :=
  let widths :=
    map (columnWidth (control e)) (seq 0 (length (columns (adapter e)))) in
  {[ "cached_widths" := widths ]}.

Definition restore_prefs (depth : nat) (prefs : gmap string (list Z))
    : Method unit :=
  let cws := prefs !! "cached_widths" in
  a <- gets adapter;;
  let num_columns := length (columns a) in
  match cws with
  | Some cws =>
      if decide (num_columns = length cws) then
        for_each (seq 0 num_columns)
          (fun column =>
             width <- lift (getitem cws column);;
             setColumnWidth depth column width)
      else ret tt
  | None => ret tt
  end.

(** *** Keyboard *)

Definition model_removeRow (r : Z) : Method unit :=
  call (removeRow r);;
  modify (TabularModel_removeRow r).

Definition model_insertRow (r : Z) : Method unit :=
  call (insertRow r);;
  modify (TabularModel_insertRow r).

Definition key_in (k : Key) (ks : list Key) : bool :=
  existsb
    (fun k' =>
       match k, k' with
       | Key_Enter, Key_Enter | Key_Return, Key_Return
       | Key_Backspace, Key_Backspace | Key_Delete, Key_Delete
       | Key_Insert, Key_Insert => true
       | Key_Other a, Key_Other b => a =? b
       | _, _ => false
       end) ks.

(** [factory.editable and name in factory.operations] *)
Definition allows (name : string) : Method bool :=
  f <- get_factory;;
  ret (editable f && bool_decide (name ∈ operations f)).

Definition keyPressEvent (key : Key) : Method unit :=
  is_editing <- gets (fun e => editing (control e));;
  may_edit <-
    (if key_in key [Key_Enter; Key_Return] && negb is_editing
     then allows "edit" else ret false);;
  if may_edit then
    f <- get_factory;;
    row <- (if multi_select f then
              rows <- gets multi_selected_rows;;
              ret (match rows with [r] => r | _ => -1 end)
            else gets selected_row);;
    if negb (row =? -1) then
      call accept;;
      call (edit row 0)
    else ret tt
  else
    may_delete <-
      (if key_in key [Key_Backspace; Key_Delete]
       then allows "delete" else ret false);;
    if may_delete then
      call accept;;
      f <- get_factory;;
      if multi_select f then
        rows <- gets multi_selected_rows;;
        for_each (reversed_sorted rows) model_removeRow
      else
        r <- gets selected_row;;
        if negb (r =? -1) then
          r <- gets selected_row;;
          model_removeRow r
        else ret tt
    else
      may_insert <-
        (if key_in key [Key_Insert] then allows "insert" else ret false);;
      if may_insert then
        call accept;;
        f <- get_factory;;
        row <- (if multi_select f then
                  rows <- gets multi_selected_rows;;
                  ret (match merge_sort Z.le rows with r :: _ => r | [] => -1 end)
                else gets selected_row);;
        row <- (if row =? -1 then
                  a <- gets adapter;;
                  values <- gets value;;
                  ret (len a values)
                else ret row);;
        model_insertRow row;;
        call (setCurrentIndex row 0)
      else
        call (QTableView_keyPressEvent key).

(** *** Observations used in the statements *)

(** The rows handed to the table model's [removeRow], in call order. *)
Definition removed_rows (t : list Call) : list Z :=
  omap (fun c => match c with removeRow r => Some r | _ => None end) t.

(** Section sizes after [resizeSection(column, width)] for each pair. *)
Definition resized (l : list (nat * Z)) (sizes : list Z) : list Z :=
  foldl (fun acc cw => <[cw.1 := cw.2]> acc) sizes l.

(** The value [sizeHintForColumn] returns when [auto_resize] is off. *)
Definition minimum_width (e : TabularEditor Item) (column : nat) : Q :=
  let width := get_width (adapter e) column in
  if Qgtb width 1 then width
  else inject_Z (sectionSizeHint (control e) column).

(** The widths handed to the header by [resizeColumnsToContents] when
    [auto_resize] is off. *)
Definition computed_widths (s : TabularEditor Item) : list Z :=
  let cols := seq 0 (length (columns (adapter s))) in
  compute_column_widths (viewport_width (control s))
    (map (get_width (adapter s)) cols)
    (map (minimum_width s) cols)
    (_user_widths (control s)).

(** The editor after [columnResized] has recorded [new] for column [index]. *)
Definition recorded (index : nat) (new : Z) (e : TabularEditor Item)
    : TabularEditor Item :=
  let user_widths :=
    default (replicate (length (columns (adapter e))) None)
      (_user_widths (control e)) in
  with_control
    (with_user_widths (Some (<[index := Some new]> user_widths)) (control e)) e.

(** The editor after [resizeColumnsToContents] when [auto_resize] is off. *)
Definition relayout (e : TabularEditor Item) : TabularEditor Item :=
  with_control
    (with_is_resizing false
       (with_section_sizes
          (resized (enumerate (computed_widths e)) (section_sizes (control e)))
          (control e)))
    e.

(** The editor with its header sections set to [sizes]. *)
Definition with_sizes (sizes : list Z) (e : TabularEditor Item)
    : TabularEditor Item :=
  with_control (with_section_sizes sizes (control e)) e.

End Methods.

(** ** A small editor used in the examples

    Three rows of strings and two columns; the first column has a fixed
    width of 80, the second none. *)

Module Example.

Definition items : list string := ["ann"; "bob"; "cy"]%string.

Definition menu : Menu :=
  {| menu_label := "columns"; exec_raises := None |}.

Definition the_adapter : TabularAdapter string :=
  {| columns := ["name"; "age"]%string;
     get_width := fun column =>
       match column with O => (80 # 1)%Q | _ => (-1 # 1)%Q end;
     get_item := fun values r =>
       Ok (if r <? 0 then None else values !! Z.to_nat r);
     get_column_menu := fun _ column =>
       if column =? 0 then Some menu else None;
     len := fun values => Z.of_nat (length values) |}.

Definition the_factory (multi auto : bool) : Factory :=
  {| multi_select := multi; editable := true; auto_resize := auto;
     operations := ["delete"; "edit"; "insert"; "move"]%string;
     scroll_to_position_hint := "visible" |}.

Definition the_view (sizes : list Z) (rows : list Z) : @TableView :=
  {| _user_widths := None; _is_resizing := false;
     section_sizes := sizes;
     sectionSizeHint := fun _ => 30;
     QTableView_sizeHintForColumn := fun _ => 40;
     QTableView_contents_widths := [40; 40];
     viewport_width := 300;
     selectedRows := rows;
     columnAt := fun x => if x <? 0 then -1 else if x <? 100 then 0 else 1;
     global_origin := (10, 20);
     editing := false |}.

Definition the_editor (multi auto : bool) (sizes : list Z) (rows : list Z)
    : TabularEditor string :=
  {| factory := Some (the_factory multi auto);
     adapter := the_adapter;
     value := items;
     selected := None; multi_selected := [];
     selected_row := -1; multi_selected_rows := rows;
     selected_column := -1;
     column_right_clicked := None;
     _no_update := false; _no_notify := false; _menu_context := None;
     control := the_view sizes rows |}.

(** A stand-in for the width helper: a column gets its user width when it
    has one and its minimum width, rounded down, otherwise. *)
Definition user_or_minimum (available_space : Z) (requested min_widths : list Q)
    (user_widths : option (list (option Z))) : list Z :=
  imap (fun i m =>
          default (Qfloor m) (mjoin (default [] user_widths !! i)))
       min_widths.

(** The table model deletes the row from the edited list. *)
Definition delete_row (r : Z) (e : TabularEditor string) : TabularEditor string :=
  {| factory := factory e; adapter := adapter e;
     value := if r <? 0 then value e else delete (Z.to_nat r) (value e);
     selected := selected e; multi_selected := multi_selected e;
     selected_row := selected_row e;
     multi_selected_rows := multi_selected_rows e;
     selected_column := selected_column e;
     column_right_clicked := column_right_clicked e;
     _no_update := _no_update e; _no_notify := _no_notify e;
     _menu_context := _menu_context e; control := control e |}.

(** [raise_to_debug] returning: the exception is swallowed. *)
Definition quiet : Imports string :=
  {| raise_to_debug := fun _ => Ok tt;
     compute_column_widths := user_or_minimum;
     TabularModel_removeRow := delete_row;
     TabularModel_insertRow := fun _ e => e |}.

(** [raise_to_debug] raising the active exception again. *)
Definition debugging : Imports string :=
  {| raise_to_debug := fun e => Raise e;
     compute_column_widths := user_or_minimum;
     TabularModel_removeRow := delete_row;
     TabularModel_insertRow := fun _ e => e |}.

(** An attribute assignment that rejects one name and otherwise sets the
    no-notify flag, to exercise [setx]. *)
Definition strict_setattr (name : string) (v : bool) : M string unit :=
  if String.eqb name "selected_row" then raise TraitError
  else modify (with_no_notify v).

End Example.

(** ** The rest of the editor

    The handlers of the selection column, the click and activation
    handlers, the update of the editor after an external change and the
    image cache.  The traits they need beyond those above are kept beside
    the editor in [EditorObject]; the event traits, which the code assigns
    by name with [setattr], are a map from the trait name. *)

Inductive QEventType : Type :=
  | ContextMenu
  | OtherEvent (code : Z).

(** An image resource: the object's identity, its name and the icon its
    [create_icon()] makes. *)
Record ImageResource : Type := {
  resource_id : nat;
  name : string;
  icon : nat;
}.

(** The value given to [_get_image], after the [str] case: an image
    resource, or something else that may serve as a key of [images]. *)
Inductive PyImage : Type :=
  | image_resource (r : ImageResource)
  | image_key (k : option string).

(** The calls of this part: those of the first part, the model reset, the
    repaint of the viewport and the creation of an icon. *)
Inductive EditorCall : Type :=
  | base_call (c : Call)
  | beginResetModel
  | endResetModel
  | viewport_update
  | create_icon (r : ImageResource).

Section MoreMethods.

Context {Item : Type} {Item_eq : EqDecision Item} {imports : Imports Item}.

Local Abbreviation Method := (M Item).

Definition with_selected_column (c : Z) (e : TabularEditor Item)
    : TabularEditor Item :=
  {| factory := factory e; adapter := adapter e; value := value e;
     selected := selected e; multi_selected := multi_selected e;
     selected_row := selected_row e;
     multi_selected_rows := multi_selected_rows e;
     selected_column := c;
     column_right_clicked := column_right_clicked e;
     _no_update := _no_update e; _no_notify := _no_notify e;
     _menu_context := _menu_context e; control := control e |}.

(** *** The selection column *)

Definition _scroll_to_column_changed (column : Z) : Method unit :=
  f <- get_factory;;
  let scroll_hint :=
    default EnsureVisible
      (SCROLL_TO_POSITION_HINT_MAP !! scroll_to_position_hint f) in
  r <- gets selected_row;;
  call (scrollTo (Z.max r 0) column scroll_hint).

(** [scroll_to_column] is an event trait: assigning it runs its handler. *)
Definition set_scroll_to_column (column : Z) : Method unit :=
  _scroll_to_column_changed column.

Definition _selected_column_changed (selected_column : Z) : Method unit :=
  no_update <- gets _no_update;;
  if negb no_update then
    if 0 <=? selected_column then
      r <- gets selected_row;;
      call (select (Z.max r 0) selected_column ClearAndSelect_Rows);;
      set_scroll_to_column selected_column
    else ret tt
  else ret tt.

Definition set_selected_column (new : Z) : Method unit :=
  old <- gets selected_column;;
  modify (with_selected_column new);;
  if decide (old = new) then ret tt else notify (_selected_column_changed new).

(** *** HeaderEventFilter *)

Definition eventFilter (event_type : QEventType) (pos : Z * Z) : Method bool :=
  match event_type with
  | ContextMenu => _on_column_context_menu pos;; ret true
  | OtherEvent _ => ret false
  end.

(** *** The editor object with its further traits *)

Record EditorObject : Type := {
  editor : TabularEditor Item;
  (* clicked, dclicked, column_clicked, ...: by trait name *)
  event_traits : gmap string TabularEditorEvent;
  activated : option Item;
  activated_row : Z;
  (* image name -> icon *)
  images : gmap string nat;
  (* image resource -> icon *)
  image_resources : gmap nat nat;
}.

Definition with_editor (e : TabularEditor Item) (o : EditorObject) : EditorObject :=
  {| editor := e; event_traits := event_traits o; activated := activated o;
     activated_row := activated_row o; images := images o;
     image_resources := image_resources o |}.

Definition with_event_traits (t : gmap string TabularEditorEvent)
    (o : EditorObject) : EditorObject :=
  {| editor := editor o; event_traits := t; activated := activated o;
     activated_row := activated_row o; images := images o;
     image_resources := image_resources o |}.

Definition with_activated (x : option Item) (o : EditorObject) : EditorObject :=
  {| editor := editor o; event_traits := event_traits o; activated := x;
     activated_row := activated_row o; images := images o;
     image_resources := image_resources o |}.

Definition with_activated_row (r : Z) (o : EditorObject) : EditorObject :=
  {| editor := editor o; event_traits := event_traits o;
     activated := activated o; activated_row := r; images := images o;
     image_resources := image_resources o |}.

Definition with_images (m : gmap string nat) (o : EditorObject) : EditorObject :=
  {| editor := editor o; event_traits := event_traits o;
     activated := activated o; activated_row := activated_row o; images := m;
     image_resources := image_resources o |}.

Definition with_image_resources (m : gmap nat nat) (o : EditorObject)
    : EditorObject :=
  {| editor := editor o; event_traits := event_traits o;
     activated := activated o; activated_row := activated_row o;
     images := images o; image_resources := m |}.

(** Methods on the editor object: as [M], over [EditorObject] and
    [EditorCall]. *)
Definition MO (A : Type) : Type :=
  EditorObject -> Res A * EditorObject * list EditorCall.

Definition oret {A} (a : A) : MO A := fun o => (Ok a, o, []).

Definition obind {A B} (m : MO A) (k : A -> MO B) : MO B :=
  fun o =>
    match m o with
    | (Ok a, o1, t1) =>
        match k a o1 with (r, o2, t2) => (r, o2, t1 ++ t2) end
    | (Raise e, o1, t1) => (Raise e, o1, t1)
    end.

Definition oraise {A} (e : Exn) : MO A := fun o => (Raise e, o, []).
Definition olift {A} (r : Res A) : MO A := fun o => (r, o, []).
Definition ogets {A} (f : EditorObject -> A) : MO A := fun o => (Ok (f o), o, []).
Definition omodify (f : EditorObject -> EditorObject) : MO unit :=
  fun o => (Ok tt, f o, []).
Definition ocall (c : EditorCall) : MO unit := fun o => (Ok tt, o, [c]).

(** A method of the first part, run on the editor inside the object. *)
Definition on_editor {A} (m : Method A) : MO A :=
  fun o =>
    match m (editor o) with
    | (r, e, t) => (r, with_editor e o, base_call <$> t)
    end.

End MoreMethods.

Arguments EditorObject Item : clear implicits.
Arguments MO Item A : clear implicits.

Declare Scope object_scope.
Delimit Scope object_scope with object.
Notation "x <- m ;; k" := (obind m (fun x => k))
  (at level 100, m at next level, right associativity) : object_scope.
Notation "m ;; k" := (obind m (fun _ => k))
  (at level 100, right associativity) : object_scope.

Section ObjectMethods.

Context {Item : Type} {Item_eq : EqDecision Item} {imports : Imports Item}.

Local Open Scope object_scope.

Local Abbreviation ObjectMethod := (MO Item).

(** *** Editor interface *)

Definition update_editor : ObjectMethod unit :=
  no_update <- ogets (fun o => _no_update (editor o));;
  if negb no_update then
    ocall beginResetModel;;
    ocall endResetModel;;
    f <- on_editor get_factory;;
    if multi_select f then
      new <- ogets (fun o => multi_selected (editor o));;
      on_editor (_multi_selected_changed new)
    else
      new <- ogets (fun o => selected (editor o));;
      on_editor (_selected_changed new)
  else oret tt.

Definition refresh_editor : ObjectMethod unit :=
  ocall viewport_update.

Definition _update_changed : ObjectMethod unit := update_editor.

Definition _refresh_changed : ObjectMethod unit := refresh_editor.

(** The handler is installed while the view exists, so [self.control] is
    there when it runs. *)
Definition _adapter_columns_updated : ObjectMethod unit :=
  n_columns <- ogets (fun o => length (columns (adapter (editor o))));;
  user_widths <- ogets (fun o => _user_widths (control (editor o)));;
  (match user_widths with
   | Some widths =>
       if decide (length widths = n_columns) then oret tt
       else on_editor (write_user_widths None)
   | None => oret tt
   end);;
  update_editor.

(** *** Clicks and activation *)

(** [self.name] for an event trait: None until the first event. *)
Definition get_event (trait : string) : ObjectMethod TabularEditorEvent :=
  events <- ogets event_traits;;
  match events !! trait with
  | Some event => oret event
  | None => oraise AttributeError
  end.

Definition _clicked_changed : ObjectMethod unit :=
  f <- on_editor get_factory;;
  if negb (multi_select f) then
    clicked <- get_event "clicked";;
    on_editor (set_selected_row (row clicked));;
    clicked <- get_event "clicked";;
    on_editor (set_selected_column (column clicked))
  else oret tt.

Definition _column_clicked_changed : ObjectMethod unit :=
  f <- on_editor get_factory;;
  if negb (multi_select f) then
    column_clicked <- get_event "column_clicked";;
    on_editor (set_selected_column (column column_clicked))
  else oret tt.

(** [setattr(self, trait, event)]: the event is stored under the trait's
    name and the handler this class has for that trait, if any, runs. *)
Definition set_event (trait : string) (event : TabularEditorEvent)
    : ObjectMethod unit :=
  omodify (fun o => with_event_traits (<[trait := event]> (event_traits o)) o);;
  if String.eqb trait "clicked" then _clicked_changed
  else if String.eqb trait "column_clicked" then _column_clicked_changed
  else oret tt.

Definition _mouse_click (index : Z * Z) (trait : string) : ObjectMethod unit :=
  let event := {| row := index.1; column := index.2 |} in
  set_event trait event.

Definition _on_click (index : Z * Z) : ObjectMethod unit :=
  _mouse_click index "clicked".

Definition _on_dclick (index : Z * Z) : ObjectMethod unit :=
  _mouse_click index "dclicked".

Definition _on_column_click (column : Z) : ObjectMethod unit :=
  let event := {| row := 0; column := column |} in
  set_event "column_clicked" event.

Definition _on_activate (index : Z * Z) : ObjectMethod unit :=
  let row := index.1 in
  omodify (with_activated_row row);;
  a <- ogets (fun o => adapter (editor o));;
  values <- ogets (fun o => value (editor o));;
  item <- olift (get_item a values row);;
  omodify (with_activated item).

(** *** Images *)

Definition _add_image (image_resource : ImageResource) : ObjectMethod nat :=
  ocall (create_icon image_resource);;
  let image := icon image_resource in
  omodify (fun o =>
             with_image_resources
               (<[resource_id image_resource := image]> (image_resources o)) o);;
  omodify (fun o => with_images (<[name image_resource := image]> (images o)) o);;
  oret image.

(** [_get_image] once a string has gone through the [image] trait, whose
    conversion belongs to the toolkit layer. *)
Definition _get_image_converted (image : PyImage) : ObjectMethod (option nat) :=
  match image with
  | image_resource r =>
      cache <- ogets image_resources;;
      match cache !! resource_id r with
      | Some result => oret (Some result)
      | None => image <- _add_image r;; oret (Some image)
      end
  | image_key k =>
      names <- ogets images;;
      oret (k ≫= fun key => names !! key)
  end.

Section GetImage.

(** Assigning a string to the [image] trait and reading it back: the
    trait's conversion, which may reject the string. *)
Context (Image_trait : string -> Res PyImage).

Definition _get_image (image : string + PyImage) : ObjectMethod (option nat) :=
  match image with
  | inl s => image <- olift (Image_trait s);; _get_image_converted image
  | inr image => _get_image_converted image
  end.

End GetImage.

(** *** Observations *)

Definition oresult {A} (r : Res A * EditorObject Item * list EditorCall) : Res A :=
  r.1.1.
Definition oafter {A} (r : Res A * EditorObject Item * list EditorCall)
    : EditorObject Item := r.1.2.
Definition ocalls {A} (r : Res A * EditorObject Item * list EditorCall)
    : list EditorCall := r.2.

(** The user widths, when recorded, hold one entry per adapter column. *)
Definition user_widths_fit (e : TabularEditor Item) : Prop :=
  forall widths, _user_widths (control e) = Some widths ->
                 length widths = length (columns (adapter e)).

(** Calls that change the table model or open a cell editor. *)
Definition changes_model (c : Call) : bool :=
  match c with
  | removeRow _ | insertRow _ | edit _ _ => true
  | _ => false
  end.

End ObjectMethods.

(** ** Further examples *)

Module ObjectExample.

Import Example.

(** An editor over [values] with the given factory and recorded widths. *)
Definition an_editor (fac : option Factory) (values : list string)
    (recorded_widths : option (list (option Z))) : TabularEditor string :=
  {| factory := fac;
     adapter := the_adapter;
     value := values;
     selected := None; multi_selected := [];
     selected_row := -1; multi_selected_rows := [];
     selected_column := -1;
     column_right_clicked := None;
     _no_update := false; _no_notify := false; _menu_context := None;
     control := with_user_widths recorded_widths (the_view [100; 100] []) |}.

Definition read_only : Factory :=
  {| multi_select := false; editable := false; auto_resize := false;
     operations := ["delete"; "edit"; "insert"; "move"]%string;
     scroll_to_position_hint := "center" |}.

Definition an_object (e : TabularEditor string) : EditorObject string :=
  {| editor := e; event_traits := ∅; activated := None; activated_row := -1;
     images := ∅; image_resources := ∅ |}.

Definition red_ball : ImageResource :=
  {| resource_id := 7%nat; name := "red_ball"; icon := 42%nat |}.

(** A column menu whose execution fails, and an editor whose adapter offers
    the given menu on every column. *)
Definition failing_menu : Menu :=
  {| menu_label := "broken"; exec_raises := Some (Failure "boom") |}.

Definition with_column_menu (m : Menu) (e : TabularEditor string)
    : TabularEditor string :=
  {| factory := factory e;
     adapter :=
       {| columns := columns (adapter e);
          get_width := get_width (adapter e);
          get_item := get_item (adapter e);
          get_column_menu := fun _ _ => Some m;
          len := len (adapter e) |};
     value := value e;
     selected := selected e; multi_selected := multi_selected e;
     selected_row := selected_row e;
     multi_selected_rows := multi_selected_rows e;
     selected_column := selected_column e;
     column_right_clicked := column_right_clicked e;
     _no_update := _no_update e; _no_notify := _no_notify e;
     _menu_context := _menu_context e; control := control e |}.

(** The [image] trait turning the name of the red ball into its resource
    and rejecting every other string. *)
Definition known_images (s : string) : Res PyImage :=
  if String.eqb s "red_ball" then Ok (image_resource red_ball)
  else Raise TraitError.

End ObjectExample.

(** * Properties *)

Section Properties.

Context {Item : Type} {Item_eq : EqDecision Item} {imports : Imports Item}.

Local Abbreviation Method := (M Item).
Local Abbreviation Editor := (TabularEditor Item).

(** ** The monad *)

Lemma try_finally_modify {A} (body : Method A) (f : Editor -> Editor) (s : Editor) :
  try_finally body (modify f) s
  = (result (body s), f (after (body s)), calls (body s) ++ []).
Proof.
  unfold try_finally, modify, result, after, calls.
  destruct (body s) as [[r s1] t1]. reflexivity.
Qed.

Lemma bind_modify {A} (f : Editor -> Editor) (k : Method A) (s : Editor) :
  bind (modify f) (fun _ => k) s = k (f s).
Proof.
  unfold bind, modify. destruct (k (f s)) as [[r s1] t1]. reflexivity.
Qed.

Lemma bind_gets {A B} (f : Editor -> A) (k : A -> Method B) (s : Editor) :
  bind (gets f) k s = k (f s) s.
Proof.
  unfold bind, gets. destruct (k (f s) s) as [[r s1] t1]. reflexivity.
Qed.

Lemma bind_ret {A B} (a : A) (k : A -> Method B) (s : Editor) :
  bind (ret a) k s = k a s.
Proof.
  unfold bind, ret. destruct (k a s) as [[r s1] t1]. reflexivity.
Qed.

Lemma bind_call {A} (c : Call) (k : Method A) (s : Editor) :
  bind (call c) (fun _ => k) s
  = (result (k s), after (k s), c :: calls (k s)).
Proof.
  unfold bind, call, result, after, calls.
  destruct (k s) as [[r s1] t1]. reflexivity.
Qed.

Lemma bind_lift {A B} (r : Res A) (k : A -> Method B) (s : Editor) :
  bind (lift r) k s
  = match r with Ok a => k a s | Raise e => (Raise e, s, []) end.
Proof.
  unfold bind, lift. destruct r as [a|e]; [| reflexivity].
  destruct (k a s) as [[r s1] t1]. reflexivity.
Qed.

Lemma run_eta {A} (o : Res A * Editor * list Call) :
  o = (result o, after o, calls o).
Proof. destruct o as [[r s] t]. reflexivity. Qed.

(** ** callx and setx *)

(** C8.  [callx] puts [_no_update] back to the value it had before the
    call, and [setx] does the same for [_no_notify], whatever the wrapped
    function or the attribute assignments do: return, raise, or write the
    flag themselves.  The exception of a failing call still reaches the
    caller. *)
Theorem callx_setx_restore_flags :
  (forall (A : Type) (func : Method A) (s : Editor),
      let o := callx func s in
      _no_update (after o) = _no_update s /\
      result o = match result (func (with_no_update true s)) with
                 | Ok _ => Ok tt
                 | Raise e => Raise e
                 end) /\
  (forall (Value : Type) (setattr : string -> Value -> Method unit)
          (keywords : list (string * Value)) (s : Editor),
      let o := setx setattr keywords s in
      _no_notify (after o) = _no_notify s /\
      result o = result (for_each keywords (fun kv => setattr kv.1 kv.2)
                           (with_no_notify true s))).
Proof.
  split.
  - intros A func s o. subst o. unfold callx.
    rewrite bind_gets, bind_modify, try_finally_modify.
    unfold result, after, bind, ret. simpl.
    destruct (func (with_no_update true s)) as [[[a|e] s1] t1]; simpl; auto.
  - intros Value setattr keywords s o. subst o. unfold setx.
    rewrite bind_gets, bind_modify, try_finally_modify.
    unfold result, after. simpl. auto.
Qed.

(** ** Handlers inside and outside a [_no_update] region *)

Lemma selected_row_changed_no_update (r : Z) (s : Editor) :
  _no_update s = true -> _selected_row_changed r s = (Ok tt, s, []).
Proof.
  intros Hs. unfold _selected_row_changed. rewrite bind_gets, Hs. reflexivity.
Qed.

Lemma selected_changed_no_update (new : option Item) (s : Editor) :
  _no_update s = true -> _selected_changed new s = (Ok tt, s, []).
Proof.
  intros Hs. unfold _selected_changed. rewrite bind_gets, Hs. reflexivity.
Qed.

Lemma notify_ok (handler : Method unit) (s s1 : Editor) (t : list Call) :
  handler s = (Ok tt, s1, t) -> notify handler s = (Ok tt, s1, t).
Proof.
  intros Hh. unfold notify, try_except_else, ret. rewrite Hh.
  rewrite app_nil_r. reflexivity.
Qed.

Lemma set_selected_row_no_update (r : Z) (s : Editor) :
  _no_update s = true ->
  set_selected_row r s = (Ok tt, with_selected_row r s, []).
Proof.
  intros Hs. unfold set_selected_row. rewrite bind_gets, bind_modify.
  destruct (decide (selected_row s = r)); [reflexivity |].
  apply notify_ok, selected_row_changed_no_update. exact Hs.
Qed.

Lemma set_selected_no_update (x : option Item) (s : Editor) :
  _no_update s = true ->
  set_selected x s = (Ok tt, with_selected x s, []).
Proof.
  intros Hs. unfold set_selected. rewrite bind_gets, bind_modify.
  destruct (decide (selected s = x)); [reflexivity |].
  apply notify_ok, selected_changed_no_update. exact Hs.
Qed.


Lemma bind_run {A B} (m : Method A) (k : A -> Method B) (s s1 : Editor)
    (a : A) (t1 : list Call) :
  m s = (Ok a, s1, t1) ->
  bind m k s = (result (k a s1), after (k a s1), t1 ++ calls (k a s1)).
Proof.
  intros Hm. unfold bind, result, after, calls. rewrite Hm.
  destruct (k a s1) as [[r s2] t2]. reflexivity.
Qed.

Lemma bind_raise {A B} (m : Method A) (k : A -> Method B) (s s1 : Editor)
    (e : Exn) (t1 : list Call) :
  m s = (Raise e, s1, t1) -> bind m k s = (Raise e, s1, t1).
Proof. intros Hm. unfold bind. rewrite Hm. reflexivity. Qed.

(** ** The row selection callback *)

(** C2.  In single-select mode the selection-changed callback sets
    [selected_row] to the first selected row and [selected] to the adapter's
    item for that row, or to -1 and None when no row is selected; it touches
    no widget, and [_no_update] is False afterwards in every case, also when
    the adapter raises. *)
Theorem on_row_selection_spec (s : Editor) :
  let o := _on_row_selection s in
  _no_update (after o) = false /\
  calls o = [] /\
  match selectedRows (control s) with
  | first :: _ =>
      selected_row (after o) = first /\
      match get_item (adapter s) (value s) first with
      | Ok item => selected (after o) = item /\ result o = Ok tt
      | Raise e => selected (after o) = selected s /\ result o = Raise e
      end
  | [] =>
      selected_row (after o) = -1 /\
      selected (after o) = None /\
      result o = Ok tt
  end.
Proof.
  intros o. subst o. unfold _on_row_selection.
  rewrite bind_modify, try_finally_modify.
  set (s1 := with_no_update true s).
  assert (H1 : _no_update s1 = true) by reflexivity.
  rewrite bind_gets.
  change (selectedRows (control s1)) with (selectedRows (control s)).
  destruct (selectedRows (control s)) as [|first rest].
  - erewrite bind_run by (apply set_selected_row_no_update; exact H1).
    rewrite set_selected_no_update by reflexivity.
    unfold result, after, calls. simpl. auto.
  - erewrite bind_run by (apply set_selected_row_no_update; exact H1).
    rewrite !bind_gets.
    change (get_item (adapter (with_selected_row first s1))
              (value (with_selected_row first s1))
              (selected_row (with_selected_row first s1)))
      with (get_item (adapter s) (value s) first).
    destruct (get_item (adapter s) (value s) first) as [item|e].
    + erewrite bind_run by reflexivity.
      rewrite set_selected_no_update by reflexivity.
      unfold result, after, calls. simpl. auto.
    + erewrite bind_raise by reflexivity.
      unfold result, after, calls. simpl. auto.
Qed.

(** ** Selecting a row from the trait side *)

(** C3.  Outside a [_no_update] region the handler of [selected_row] clears
    the widget's selection for a negative row; for a row r >= 0 it selects
    row r at column max(selected_column, 0) with ClearAndSelect | Rows and
    then fires [scroll_to_row] with r, which scrolls the view to that cell.
    An assignment that changes [selected_row] runs exactly this handler. *)
Theorem selected_row_changed_spec (s : Editor) (r : Z) (f : Factory) :
  _no_update s = false ->
  factory s = Some f ->
  let column := Z.max (selected_column s) 0 in
  let hint :=
    default EnsureVisible
      (SCROLL_TO_POSITION_HINT_MAP !! scroll_to_position_hint f) in
  let widget_calls :=
    if r <? 0 then [clearSelection]
    else [select r column ClearAndSelect_Rows; scrollTo r column hint] in
  _selected_row_changed r s = (Ok tt, s, widget_calls) /\
  (selected_row s <> r ->
   set_selected_row r s = (Ok tt, with_selected_row r s, widget_calls)).
Proof.
  intros Hu Hf column hint widget_calls.
  assert (Hh : forall s' : Editor,
             _no_update s' = false -> factory s' = Some f ->
             selected_column s' = selected_column s ->
             _selected_row_changed r s' = (Ok tt, s', widget_calls)).
  { intros s' Hu' Hf' Hc. unfold _selected_row_changed.
    rewrite bind_gets, Hu'. simpl. subst widget_calls.
    destruct (r <? 0); [reflexivity |].
    rewrite bind_gets, bind_call.
    unfold set_scroll_to_row, _scroll_to_row_changed, get_factory.
    unfold bind, gets, ret, call, result, after, calls. rewrite Hf'. simpl.
    subst column hint. rewrite Hc. reflexivity. }
  split.
  - apply Hh; auto.
  - intros Hne. unfold set_selected_row. rewrite bind_gets, bind_modify.
    destruct (decide (selected_row s = r)); [contradiction |].
    apply notify_ok, Hh; auto.
Qed.

(** ** Selection values that are not in the edited list *)

Lemma list_index_missing (values : list Item) (x : Item) :
  x ∉ values -> list_index values x = Raise ValueError.
Proof.
  intros Hx. unfold list_index.
  destruct (list_find (fun y => y = x) values) as [[i y]|] eqn:Hfind;
    [| reflexivity].
  apply list_find_Some in Hfind as (Hi & -> & _).
  exfalso. apply Hx. eapply list_elem_of_lookup_2. exact Hi.
Qed.

Lemma list_index_found (values : list Item) (x : Item) :
  x ∈ values -> exists i, list_index values x = Ok i.
Proof.
  intros Hx. unfold list_index.
  destruct (list_find (fun y => y = x) values) as [[i y]|] eqn:Hfind;
    [eauto |].
  apply list_find_None in Hfind.
  rewrite Forall_forall in Hfind. exfalso. apply (Hfind x Hx). reflexivity.
Qed.

(** A comprehension of index lookups stops at the first missing item; it
    neither writes the editor nor calls the widget. *)
Lemma comprehension_index_missing (values new : list Item) (s : Editor) :
  Exists (fun i => i ∉ values) new ->
  comprehension (fun i => lift (list_index values i)) new s
  = (Raise ValueError, s, []).
Proof.
  induction new as [|x new IH]; intros Hex.
  - inversion Hex.
  - simpl. destruct (decide (x ∈ values)) as [Hin|Hout].
    + destruct (list_index_found values x Hin) as [i Hi].
      assert (Hrest : Exists (fun i => i ∉ values) new).
      { inversion Hex; subst; [contradiction | assumption]. }
      rewrite bind_lift, Hi.
      erewrite bind_raise by (apply IH; exact Hrest). reflexivity.
    + rewrite bind_lift, (list_index_missing values x Hout). reflexivity.
Qed.

Lemma comprehension_index_pure (values new : list Item) (s : Editor) :
  after (comprehension (fun i => lift (list_index values i)) new s) = s /\
  calls (comprehension (fun i => lift (list_index values i)) new s) = [].
Proof.
  induction new as [|x new IH]; simpl.
  - split; reflexivity.
  - rewrite bind_lift.
    destruct (list_index values x) as [i|e]; [| split; reflexivity].
    destruct IH as [IHa IHc]. unfold bind, ret, after, calls in *.
    destruct (comprehension _ new s) as [[[rows|e] s1] t1];
      simpl in *; subst; split; reflexivity.
Qed.

(** C1, as the code has it.  When the assigned selection holds a value that
    is not in the edited list, no handler writes the editor or calls the
    widget.  In multi-select mode both handlers swallow the lookup failure
    and return.  In single-select mode [_selected_changed] catches it and
    hands it to [raise_to_debug]: the handler returns or raises as that
    function does. *)
Theorem selection_lookup_failure :
  (forall (new : Item) (s : Editor),
      new ∉ value s ->
      _selected_changed (Some new) s
      = (if _no_update s then Ok tt else raise_to_debug ValueError, s, [])) /\
  (forall (new : list Item) (s : Editor),
      Exists (fun i => i ∉ value s) new ->
      _multi_selected_changed new s = (Ok tt, s, [])) /\
  (forall (event : TraitListEvent Item) (s : Editor),
      Exists (fun i => i ∉ value s) (added event ++ removed event) ->
      _multi_selected_items_changed event s = (Ok tt, s, [])).
Proof.
  split; [| split].
  - intros new s Hnew. unfold _selected_changed. rewrite bind_gets.
    destruct (_no_update s); [reflexivity |]. simpl.
    unfold try_except_else. rewrite bind_gets.
    unfold lift. rewrite (list_index_missing _ _ Hnew). reflexivity.
  - intros new s Hex. unfold _multi_selected_changed. rewrite bind_gets.
    destruct (_no_update s); [reflexivity |]. simpl.
    rewrite bind_gets. unfold try_except_else.
    rewrite (comprehension_index_missing _ _ _ Hex). reflexivity.
  - intros event s Hex. unfold _multi_selected_items_changed.
    rewrite bind_gets. unfold try_except_else.
    apply Exists_app in Hex as [Hadd|Hrem].
    + erewrite bind_raise
        by (apply comprehension_index_missing; exact Hadd).
      reflexivity.
    + pose proof (comprehension_index_pure (value s) (added event) s)
        as [Ha Hc].
      unfold bind at 1.
      destruct (comprehension _ (added event) s) as [[[rows|e] s1] t1];
        unfold after, calls in Ha, Hc; simpl in Ha, Hc; subst;
        [| reflexivity].
      erewrite bind_raise
        by (apply comprehension_index_missing; exact Hrem).
      reflexivity.
Qed.

(** ** The column context menu *)

(** C6, as the code has it.  A context-menu event on the header looks up
    the adapter's column menu for the column under the event.  With a menu,
    the menu is created and executed while [_menu_context] holds the
    dictionary for that column.  When the menu returns, the handler returns
    with [_menu_context] None and the editor otherwise as before; when its
    execution raises, the exception leaves the handler and [_menu_context]
    still holds the dictionary: the reset is not in a [finally] clause.
    Without a menu, the editor sets [column_right_clicked] to an event with
    that column and row 0. *)
Theorem on_column_context_menu_spec (s : Editor) (pos : Z * Z) :
  let column := columnAt (control s) pos.1 in
  let context := Some {| context_column := column |} in
  (forall menu : Menu,
      get_column_menu (adapter s) (-1) column = Some menu ->
      let o := _on_column_context_menu pos s in
      calls o = [create_menu menu;
                 exec_ menu (mapToGlobal (control s) pos) context] /\
      match exec_raises menu with
      | None =>
          result o = Ok tt /\
          after o = with_menu_context None s /\
          _menu_context (after o) = None
      | Some e =>
          result o = Raise e /\
          after o = with_menu_context context s /\
          _menu_context (after o) = context
      end) /\
  (get_column_menu (adapter s) (-1) column = None ->
   _on_column_context_menu pos s
   = (Ok tt,
      with_column_right_clicked (Some {| row := 0; column := column |}) s,
      [])).
Proof.
  intros column context. split.
  - intros menu Hmenu o. subst o. unfold _on_column_context_menu.
    rewrite !bind_gets. fold column. rewrite Hmenu.
    rewrite bind_modify, bind_call, bind_gets.
    unfold menu_exec_.
    destruct (exec_raises menu) as [e|];
      unfold bind, gets, call, ret, raise, modify, result, after, calls;
      simpl; repeat split; reflexivity.
  - intros Hmenu. unfold _on_column_context_menu.
    rewrite !bind_gets. fold column. rewrite Hmenu. reflexivity.
Qed.

(** When the menu's execution raises, the exception leaves the handler
    before the reset: the context stays set. *)
Lemma on_column_context_menu_raising (s : Editor) (pos : Z * Z) (menu : Menu)
    (e : Exn) :
  get_column_menu (adapter s) (-1) (columnAt (control s) pos.1) = Some menu ->
  exec_raises menu = Some e ->
  result (_on_column_context_menu pos s) = Raise e /\
  _menu_context (after (_on_column_context_menu pos s))
  = Some {| context_column := columnAt (control s) pos.1 |}.
Proof.
  intros Hmenu Hexec. unfold _on_column_context_menu.
  rewrite !bind_gets, Hmenu.
  rewrite bind_modify, bind_call, bind_gets.
  unfold menu_exec_. rewrite Hexec.
  unfold bind, gets, call, ret, raise, modify, result, after, calls. simpl.
  split; reflexivity.
Qed.

(** ** Deleting rows from the keyboard *)

Lemma for_each_removeRow (rows : list Z) (s : Editor) :
  result (for_each rows model_removeRow s) = Ok tt /\
  calls (for_each rows model_removeRow s) = map removeRow rows.
Proof.
  revert s. induction rows as [|r rows IH]; intros s; simpl.
  - split; reflexivity.
  - unfold model_removeRow at 1.
    unfold bind, call, modify, result, after, calls in *. simpl.
    specialize (IH (TabularModel_removeRow r s)).
    destruct (for_each rows model_removeRow (TabularModel_removeRow r s))
      as [[r1 s1] t1].
    simpl in *. destruct IH as [-> ->]. split; reflexivity.
Qed.

Lemma removed_rows_removeRow (rows : list Z) :
  removed_rows (map removeRow rows) = rows.
Proof.
  induction rows as [|r rows IH]; simpl; [reflexivity |].
  unfold removed_rows in *. simpl. rewrite IH. reflexivity.
Qed.

Lemma StronglySorted_reverse_flip {A} (R : relation A) (l : list A) :
  StronglySorted R l -> StronglySorted (flip R) (reverse l).
Proof.
  induction 1 as [|x l Hl IH Hx].
  - constructor.
  - rewrite reverse_cons. apply StronglySorted_app_2.
    + intros x1 x2 H1 H2. apply list_elem_of_singleton in H2 as ->.
      rewrite elem_of_reverse in H1. rewrite Forall_forall in Hx.
      apply Hx. exact H1.
    + exact IH.
    + repeat constructor.
Qed.

Lemma StronglySorted_weaken {A} (R R' : relation A) (l : list A) :
  (forall x y, R x y -> R' x y) ->
  StronglySorted R l -> StronglySorted R' l.
Proof.
  intros HR. induction 1 as [|x l Hl IH Hx]; constructor; [exact IH |].
  eapply Forall_impl; [exact Hx |]. intros y. apply HR.
Qed.

Lemma reversed_sorted_Permutation (rows : list Z) :
  reversed_sorted rows ≡ₚ rows.
Proof.
  unfold reversed_sorted.
  rewrite reverse_Permutation. apply merge_sort_Permutation.
Qed.

Lemma reversed_sorted_descending (rows : list Z) :
  StronglySorted Z.ge (reversed_sorted rows).
Proof.
  unfold reversed_sorted.
  assert (Hs : StronglySorted Z.le (merge_sort Z.le rows)).
  { apply StronglySorted_merge_sort; [intros x y z; lia | apply _]. }
  apply StronglySorted_reverse_flip in Hs.
  eapply StronglySorted_weaken; [| exact Hs].
  intros x y. unfold flip. lia.
Qed.

Lemma descending_NoDup_strict (l : list Z) :
  StronglySorted Z.ge l -> NoDup l -> StronglySorted Z.gt l.
Proof.
  induction 1 as [|x l Hl IH Hx]; intros Hnd.
  - constructor.
  - apply NoDup_cons in Hnd as [Hx' Hnd].
    constructor; [apply IH; exact Hnd |].
    rewrite Forall_forall in *. intros y Hy.
    specialize (Hx y Hy).
    assert (x <> y) by (intros ->; apply Hx'; exact Hy).
    lia.
Qed.

Lemma get_factory_run (s : Editor) (f : Factory) :
  factory s = Some f -> get_factory s = (Ok f, s, []).
Proof.
  intros Hf. unfold get_factory. rewrite bind_gets, Hf. reflexivity.
Qed.

Lemma allows_run (name : string) (s : Editor) (f : Factory) :
  factory s = Some f ->
  allows name s
  = (Ok (editable f && bool_decide (name ∈ operations f)), s, []).
Proof.
  intros Hf. unfold allows.
  erewrite bind_run by (apply get_factory_run; exact Hf). reflexivity.
Qed.

(** C4, as the code has it.  On Delete or Backspace with the editor
    editable and "delete" among the operations, multi-select mode hands the
    rows of [multi_selected_rows] to the model's [removeRow] in descending
    order, each as often as it is listed, and strictly descending when no row
    is listed twice; single-select mode removes row [selected_row] exactly
    when it is not -1.  When the editor is not editable or "delete" is not
    allowed, no row is removed. *)
Theorem keyPressEvent_delete_spec (s : Editor) (f : Factory) (key : Key) :
  factory s = Some f ->
  key_in key [Key_Backspace; Key_Delete] = true ->
  let rows := multi_selected_rows s in
  let o := keyPressEvent key s in
  removed_rows (calls o)
  = (if editable f && bool_decide ("delete"%string ∈ operations f) then
       if multi_select f then reversed_sorted rows
       else if decide (selected_row s = -1) then [] else [selected_row s]
     else []) /\
  reversed_sorted rows ≡ₚ rows /\
  StronglySorted Z.ge (reversed_sorted rows) /\
  (NoDup rows -> StronglySorted Z.gt (reversed_sorted rows)).
Proof.
  intros Hf Hkey rows o.
  split; [| split; [apply reversed_sorted_Permutation |
            split; [apply reversed_sorted_descending |
                    intros Hnd; apply descending_NoDup_strict;
                      [apply reversed_sorted_descending |
                       rewrite reversed_sorted_Permutation; exact Hnd]]]].
  subst o. unfold keyPressEvent. rewrite bind_gets.
  assert (Henter : key_in key [Key_Enter; Key_Return] = false)
    by (destruct key; simpl in Hkey |- *; congruence).
  assert (Hinsert : key_in key [Key_Insert] = false)
    by (destruct key; simpl in Hkey |- *; congruence).
  rewrite Henter, Hkey, Hinsert. simpl.
  rewrite bind_ret.
  erewrite bind_run by (apply allows_run; exact Hf). simpl.
  destruct (editable f && bool_decide ("delete"%string ∈ operations f)).
  - rewrite bind_call.
    erewrite bind_run by (apply get_factory_run; exact Hf). simpl.
    destruct (multi_select f).
    + rewrite bind_gets. fold rows.
      destruct (for_each_removeRow (reversed_sorted rows) s) as [_ Hc].
      unfold calls in *. simpl. unfold removed_rows at 1. simpl.
      fold (removed_rows (for_each (reversed_sorted rows) model_removeRow s).2).
      rewrite Hc. apply removed_rows_removeRow.
    + rewrite bind_gets.
      destruct (decide (selected_row s = -1)) as [Heq|Hne].
      * rewrite Heq. reflexivity.
      * assert (Hb : (selected_row s =? -1) = false) by lia.
        rewrite Hb. cbn [negb]. rewrite bind_gets.
        unfold model_removeRow, bind, call, modify, calls. reflexivity.
  - rewrite bind_ret. reflexivity.
Qed.

(** ** Column widths *)

Lemma with_sizes_id (s : Editor) :
  with_sizes (section_sizes (control s)) s = s.
Proof. destruct s as [? ? ? ? ? ? ? ? ? ? ? ? []]. reflexivity. Qed.

Lemma columnResized_step (depth index : nat) (old new : Z) :
  columnResized (S depth) index old new
  = bind (gets (fun e : Editor => _is_resizing (control e)))
      (fun resizing =>
         if negb resizing then
           bind (gets (fun e : Editor => _user_widths (control e)))
             (fun user_widths =>
                bind
                  (match user_widths with
                   | None =>
                       bind (gets adapter)
                         (fun a =>
                            write_user_widths
                              (Some (replicate (length (columns a)) None)))
                   | Some _ => ret tt
                   end)
                  (fun _ =>
                     bind (gets (fun e : Editor => _user_widths (control e)))
                       (fun user_widths =>
                          bind
                            (lift (setitem (default [] user_widths) index
                                     (Some new)))
                            (fun updated =>
                               bind (write_user_widths (Some updated))
                                 (fun _ =>
                                    bind (gets factory)
                                      (fun fac =>
                                         match fac with
                                         | Some f =>
                                             if negb (auto_resize f) then
                                               resizeColumnsToContents depth
                                             else ret tt
                                         | None => ret tt
                                         end))))))
         else ret tt).
Proof. reflexivity. Qed.

Lemma columnResized_resizing (depth index : nat) (old new : Z) (s : Editor) :
  _is_resizing (control s) = true ->
  columnResized (S depth) index old new s = (Ok tt, s, []).
Proof. intros Hr. simpl. rewrite bind_gets, Hr. reflexivity. Qed.

(** Inside [_resizing] a section resize only changes the section's size. *)
Lemma resizeSection_resizing (depth column : nat) (width : Z) (s : Editor) :
  _is_resizing (control s) = true ->
  resizeSection (columnResized (S depth)) column width s
  = (Ok tt, with_sizes (<[column := width]> (section_sizes (control s))) s,
     []).
Proof.
  intros Hr. unfold resizeSection. rewrite bind_gets.
  destruct (section_sizes (control s) !! column) as [old|] eqn:Hold.
  - destruct (decide (old = width)) as [->|Hne].
    + rewrite list_insert_id by exact Hold. rewrite with_sizes_id.
      reflexivity.
    + unfold write_section_sizes. rewrite bind_modify.
      apply columnResized_resizing. exact Hr.
  - rewrite list_insert_ge by (apply lookup_ge_None; exact Hold).
    rewrite with_sizes_id. reflexivity.
Qed.

Lemma for_each_resize_resizing (depth : nat) (l : list (nat * Z)) (s : Editor) :
  _is_resizing (control s) = true ->
  for_each l (fun cw => resizeSection (columnResized (S depth)) cw.1 cw.2) s
  = (Ok tt, with_sizes (resized l (section_sizes (control s))) s, []).
Proof.
  revert s. induction l as [|[c w] l IH]; intros s Hr; simpl.
  - rewrite with_sizes_id. reflexivity.
  - erewrite bind_run by (apply resizeSection_resizing; exact Hr).
    rewrite IH by exact Hr. reflexivity.
Qed.

Lemma map_pair_split {A B C} (g : A -> B) (h : A -> C) (l : list A) :
  (map (fun c => (g c, h c)) l).*1 = map g l /\
  (map (fun c => (g c, h c)) l).*2 = map h l.
Proof.
  induction l as [|x l [IH1 IH2]]; [split; reflexivity |].
  split; cbn; f_equal; assumption.
Qed.

Lemma sizeHintForColumn_run (s : Editor) (f : Factory) (column : nat) :
  factory s = Some f ->
  auto_resize f = false ->
  sizeHintForColumn column s = (Ok (minimum_width s column), s, []).
Proof.
  intros Hf Ha. unfold sizeHintForColumn, minimum_width.
  erewrite bind_run by (apply get_factory_run; exact Hf).
  rewrite Ha. cbv beta iota. rewrite bind_gets.
  destruct (Qgtb (get_width (adapter s) column) 1); reflexivity.
Qed.

Lemma size_hints_run (s : Editor) (f : Factory) (cols : list nat) :
  factory s = Some f ->
  auto_resize f = false ->
  comprehension
    (fun column =>
       bind (sizeHintForColumn column)
         (fun hint => ret (get_width (adapter s) column, hint)))
    cols s
  = (Ok (map (fun c => (get_width (adapter s) c, minimum_width s c)) cols),
     s, []).
Proof.
  intros Hf Ha. induction cols as [|c cols IH]; simpl; [reflexivity |].
  erewrite bind_run.
  2:{ erewrite bind_run by (apply (sizeHintForColumn_run _ f); assumption).
      reflexivity. }
  simpl. erewrite bind_run by exact IH. reflexivity.
Qed.

Lemma resizeColumnsToContents_run (depth : nat) (s : Editor) (f : Factory) :
  factory s = Some f ->
  auto_resize f = false ->
  resizeColumnsToContents (S depth) s
  = (Ok tt,
     with_control
       (with_is_resizing false
          (with_section_sizes
             (resized (enumerate (computed_widths s))
                (section_sizes (control s)))
             (control s)))
       s,
     []).
Proof.
  intros Hf Ha.
  unfold resizeColumnsToContents, resizeColumnsToContents_with.
  rewrite bind_gets.
  erewrite bind_run by (apply get_factory_run; exact Hf).
  rewrite Ha. cbv beta iota. rewrite bind_gets.
  erewrite bind_run by (apply (size_hints_run _ f); assumption).
  rewrite bind_gets.
  unfold _resizing, write_is_resizing. rewrite bind_modify.
  rewrite try_finally_modify.
  unfold header_resizeSection.
  rewrite for_each_resize_resizing by reflexivity.
  unfold result, after, calls, computed_widths. simpl.
  destruct (map_pair_split (get_width (adapter s)) (minimum_width s)
              (seq 0 (length (columns (adapter s))))) as [-> ->].
  reflexivity.
Qed.

Lemma resized_length (l : list (nat * Z)) (sizes : list Z) :
  length (resized l sizes) = length sizes.
Proof.
  revert sizes. induction l as [|[c w] l IH]; intros sizes; simpl.
  - reflexivity.
  - unfold resized in *. simpl. rewrite IH. apply length_insert.
Qed.

Lemma resized_enumerate_snoc (ws : list Z) (x : Z) (sizes : list Z) :
  resized (enumerate (ws ++ [x])) sizes
  = <[length ws := x]> (resized (enumerate ws) sizes).
Proof.
  unfold resized, enumerate. rewrite imap_app, foldl_app. simpl.
  rewrite Nat.add_0_r. reflexivity.
Qed.

Lemma resized_enumerate_lookup (ws sizes : list Z) (c : nat) (w : Z) :
  ws !! c = Some w ->
  (c < length sizes)%nat ->
  resized (enumerate ws) sizes !! c = Some w.
Proof.
  revert c w. induction ws as [|x ws IH] using rev_ind; intros c w Hc Hlt.
  - discriminate.
  - rewrite resized_enumerate_snoc.
    destruct (decide (c = length ws)) as [->|Hne].
    + rewrite lookup_app_r, Nat.sub_diag in Hc by lia.
      injection Hc as ->.
      apply list_lookup_insert_eq. rewrite resized_length. exact Hlt.
    + rewrite list_lookup_insert_ne by congruence.
      apply IH; [| exact Hlt].
      apply lookup_lt_Some in Hc as Hlen. rewrite length_app in Hlen.
      simpl in Hlen. rewrite lookup_app_l in Hc by lia. exact Hc.
Qed.


(** ** The resizing guard *)

Lemma resizing_run {A} (body : Method A) (s : Editor) :
  let s1 := with_control (with_is_resizing true (control s)) s in
  _resizing body s
  = (result (body s1),
     with_control (with_is_resizing false (control (after (body s1))))
       (after (body s1)),
     calls (body s1) ++ []).
Proof.
  intros s1. unfold _resizing, write_is_resizing.
  rewrite bind_modify, try_finally_modify. reflexivity.
Qed.

(** A resize by the user: the header emits [sectionResized] while
    [_is_resizing] is False.  The width is recorded and, with [auto_resize]
    off, the columns are laid out again. *)
Lemma columnResized_run (depth index : nat) (old new : Z) (s : Editor)
    (f : Factory) :
  factory s = Some f ->
  _is_resizing (control s) = false ->
  (index < length (default (replicate (length (columns (adapter s))) None)
                     (_user_widths (control s))))%nat ->
  columnResized (S (S depth)) index old new s
  = (Ok tt,
     if auto_resize f then recorded index new s
     else relayout (recorded index new s),
     []).
Proof.
  intros Hf Hr Hlt.
  set (user_widths := default (replicate (length (columns (adapter s))) None)
                        (_user_widths (control s))) in *.
  rewrite columnResized_step, bind_gets, Hr. cbn [negb]. rewrite bind_gets.
  set (s1 := with_control (with_user_widths (Some user_widths) (control s)) s).
  assert (H1 : forall k : Method unit,
             bind (match _user_widths (control s) with
                   | None =>
                       bind (gets adapter)
                         (fun a =>
                            write_user_widths
                              (Some (replicate (length (columns a)) None)))
                   | Some _ => ret tt
                   end) (fun _ => k) s
             = (result (k s1), after (k s1), calls (k s1))).
  { intros k. subst s1 user_widths.
    destruct (_user_widths (control s)) as [uw|] eqn:Huw.
    - rewrite bind_ret. simpl.
      replace (with_control (with_user_widths (Some uw) (control s)) s)
        with s; [apply run_eta |].
      clear -Huw. destruct s as [? ? ? ? ? ? ? ? ? ? ? ? []].
      simpl in *. subst. reflexivity.
    - erewrite bind_run.
      2:{ rewrite bind_gets. unfold write_user_widths, modify. reflexivity. }
      reflexivity. }
  rewrite H1. clear H1.
  rewrite bind_gets.
  change (default [] (_user_widths (control s1))) with user_widths.
  unfold setitem. destruct (decide (index < length user_widths)%nat);
    [| contradiction].
  rewrite bind_lift. unfold write_user_widths. rewrite bind_modify.
  rewrite bind_gets.
  change (factory (with_control _ s1)) with (factory s). rewrite Hf.
  destruct (auto_resize f) eqn:Ha; cbn [negb].
  - reflexivity.
  - erewrite resizeColumnsToContents_run by (try exact Ha; exact Hf).
    reflexivity.
Qed.

Lemma columnResized_records (depth index : nat) (old new : Z) (s : Editor)
    (f : Factory) :
  factory s = Some f ->
  _is_resizing (control s) = false ->
  let n := length (columns (adapter s)) in
  let user_widths := default (replicate n None) (_user_widths (control s)) in
  (index < length user_widths)%nat ->
  let o := columnResized (S (S depth)) index old new s in
  result o = Ok tt /\
  _user_widths (control (after o)) = Some (<[index := Some new]> user_widths) /\
  _is_resizing (control (after o)) = false /\
  factory (after o) = factory s /\
  adapter (after o) = adapter s /\
  calls o = [] /\
  (auto_resize f = true ->
   section_sizes (control (after o)) = section_sizes (control s)).
Proof.
  intros Hf Hr n user_widths Hlt o. subst o.
  rewrite (columnResized_run depth index old new s f Hf Hr Hlt).
  unfold result, after, calls. simpl.
  destruct (auto_resize f); simpl; repeat split; auto. discriminate.
Qed.

(** [setColumnWidth] with the width the column already has does nothing;
    with another width and [auto_resize] off it records the width and lays
    the columns out again. *)
Lemma setColumnWidth_same (depth column : nat) (width : Z) (s : Editor) :
  section_sizes (control s) !! column = Some width ->
  setColumnWidth depth column width s = (Ok tt, s, []).
Proof.
  intros Hw. unfold setColumnWidth, header_resizeSection, resizeSection.
  rewrite bind_gets, Hw.
  destruct (decide (width = width)); [reflexivity | contradiction].
Qed.

Lemma setColumnWidth_relayout (depth column : nat) (old width : Z) (s : Editor)
    (f : Factory) :
  factory s = Some f ->
  auto_resize f = false ->
  _is_resizing (control s) = false ->
  section_sizes (control s) !! column = Some old ->
  old <> width ->
  (column < length (default (replicate (length (columns (adapter s))) None)
                      (_user_widths (control s))))%nat ->
  setColumnWidth (S (S depth)) column width s
  = (Ok tt,
     relayout
       (recorded column width
          (with_sizes (<[column := width]> (section_sizes (control s))) s)),
     []).
Proof.
  intros Hf Ha Hr Hold Hne Hlt.
  unfold setColumnWidth, header_resizeSection, resizeSection.
  rewrite bind_gets, Hold.
  destruct (decide (old = width)); [contradiction |].
  unfold write_section_sizes. rewrite bind_modify.
  erewrite columnResized_run by (try exact Hf; try exact Hr; exact Hlt).
  rewrite Ha. reflexivity.
Qed.

(** C10, as the code has it.  [_resizing] leaves [_is_resizing] False on
    every exit of its body, also when the body raises; [columnResized] does
    nothing while [_is_resizing] is True; with [auto_resize] off the section
    resizes of [resizeColumnsToContents] run under that guard, so they are
    not recorded in [_user_widths] and the slot never re-enters the layout;
    and a resize that reaches [columnResized] while [_is_resizing] is False
    is recorded, whoever made it. *)
Theorem resizing_guard_spec :
  (forall (A : Type) (body : Method A) (s : Editor),
      let o := _resizing body s in
      _is_resizing (control (after o)) = false /\
      result o
      = result (body (with_control (with_is_resizing true (control s)) s))) /\
  (forall (depth index : nat) (old new : Z) (s : Editor),
      _is_resizing (control s) = true ->
      columnResized (S depth) index old new s = (Ok tt, s, [])) /\
  (forall (depth : nat) (s : Editor) (f : Factory),
      factory s = Some f ->
      auto_resize f = false ->
      let o := resizeColumnsToContents (S depth) s in
      result o = Ok tt /\
      _user_widths (control (after o)) = _user_widths (control s) /\
      _is_resizing (control (after o)) = false) /\
  (forall (depth index : nat) (old new : Z) (s : Editor) (f : Factory),
      factory s = Some f ->
      _is_resizing (control s) = false ->
      let user_widths :=
        default (replicate (length (columns (adapter s))) None)
          (_user_widths (control s)) in
      (index < length user_widths)%nat ->
      let o := columnResized (S (S depth)) index old new s in
      result o = Ok tt /\
      _user_widths (control (after o))
      = Some (<[index := Some new]> user_widths)).
Proof.
  split; [| split; [| split]].
  - intros A body s o. subst o. rewrite resizing_run.
    split; reflexivity.
  - intros depth index old new s Hr. apply columnResized_resizing. exact Hr.
  - intros depth s f Hf Ha o. subst o.
    rewrite (resizeColumnsToContents_run depth s f Hf Ha).
    repeat split; reflexivity.
  - intros depth index old new s f Hf Hr user_widths Hlt o.
    destruct (columnResized_records depth index old new s f Hf Hr Hlt)
      as (Hres & Hu & _).
    split; [exact Hres | exact Hu].
Qed.

(** ** Saving and restoring the column widths *)


Lemma save_prefs_lookup (s : Editor) :
  save_prefs s !! "cached_widths"%string
  = Some (map (columnWidth (control s))
            (seq 0 (length (columns (adapter s))))).
Proof. unfold save_prefs. apply lookup_singleton_eq. Qed.

Lemma for_each_skip {A} (l : list A) (body : A -> Method unit) (s : Editor) :
  (forall x, x ∈ l -> body x s = (Ok tt, s, [])) ->
  for_each l body s = (Ok tt, s, []).
Proof.
  induction l as [|x l IH]; intros Hb; [reflexivity |].
  simpl. erewrite bind_run by (apply Hb; left).
  rewrite IH; [reflexivity |]. intros y Hy. apply Hb. right. exact Hy.
Qed.



End Properties.

(** * The example editor at work *)

Import Example.

(** ** callx and setx on failing calls *)

Example callx_failing_call :
  let s := the_editor false false [100; 100] [] in
  let o := callx (A := unit)
             (bind (modify (with_no_update false)) (fun _ => raise IndexError)) s in
  result o = Raise IndexError /\ _no_update (after o) = false.
Proof. split; reflexivity. Qed.

Example setx_failing_assignment :
  let s := the_editor false false [100; 100] [] in
  let o := setx strict_setattr
             [("edit", false); ("selected_row", true); ("update", true)]%string s in
  result o = Raise TraitError /\ _no_notify (after o) = false.
Proof. split; reflexivity. Qed.

(** ** Selection *)

Example row_selection_example :
  let o := _on_row_selection (imports := quiet)
             (the_editor false false [100; 100] [1; 2]) in
  result o = Ok tt /\ selected_row (after o) = 1 /\
  selected (after o) = Some "bob"%string /\ _no_update (after o) = false.
Proof. vm_compute. repeat split; reflexivity. Qed.

Lemma selected_row_changed_witness :
  let s := the_editor false false [100; 100] [] in
  _selected_row_changed 2 s
  = (Ok tt, s, [select 2 0 ClearAndSelect_Rows; scrollTo 2 0 EnsureVisible]) /\
  _selected_row_changed (-1) s
  = (Ok tt, s, [clearSelection]).
Proof.
  intros s. split.
  - exact (proj1 (selected_row_changed_spec s 2 (the_factory false false)
                    eq_refl eq_refl)).
  - exact (proj1 (selected_row_changed_spec s (-1) (the_factory false false)
                    eq_refl eq_refl)).
Defined.

Lemma selection_lookup_failure_witness :
  let s := the_editor false false [100; 100] [] in
  _selected_changed (imports := quiet) (Some "zed"%string) s = (Ok tt, s, []) /\
  _multi_selected_changed ["ann"; "zed"]%string s
  = (Ok tt, s, []) /\
  _multi_selected_items_changed
    {| index := 0; added := ["bob"]; removed := ["zed"] |}%string s
  = (Ok tt, s, []).
Proof.
  intros s.
  destruct (selection_lookup_failure (imports := quiet)) as (H1 & H2 & H3).
  split; [| split].
  - apply (H1 "zed"%string s). vm_compute. intros H; inversion H; subst.
    repeat match goal with
           | H : _ ∈ _ |- _ => inversion H; clear H; subst
           end.
  - apply (H2 ["ann"; "zed"]%string s).
    apply Exists_cons_tl, Exists_cons_hd.
    vm_compute. intros H; inversion H; subst.
    repeat match goal with
           | H : _ ∈ _ |- _ => inversion H; clear H; subst
           end.
  - apply (H3 {| index := 0; added := ["bob"]; removed := ["zed"] |}%string s).
    apply Exists_cons_tl, Exists_cons_hd.
    vm_compute. intros H; inversion H; subst.
    repeat match goal with
           | H : _ ∈ _ |- _ => inversion H; clear H; subst
           end.
Defined.

(** With [raise_to_debug] raising, the lookup failure of [_selected_changed]
    reaches the caller. *)
Lemma selected_changed_raises_when_debugging :
  let s := the_editor false false [100; 100] [] in
  ("zed"%string ∉ value s) /\
  result (_selected_changed (imports := debugging) (Some "zed"%string) s)
  = Raise ValueError.
Proof.
  intros s. split; [| reflexivity].
  vm_compute. intros H; inversion H; subst.
  repeat match goal with
         | H : _ ∈ _ |- _ => inversion H; clear H; subst
         end.
Qed.

(** ** Deleting rows *)

Lemma keyPressEvent_delete_witness :
  let s := the_editor true false [100; 100] [0; 2; 1] in
  removed_rows (calls (keyPressEvent (imports := quiet) Key_Delete s))
  = [2; 1; 0] /\
  StronglySorted Z.gt [2; 1; 0].
Proof.
  intros s.
  destruct (keyPressEvent_delete_spec (imports := quiet) s
              (the_factory true false) Key_Delete eq_refl eq_refl)
    as (Hrows & _ & _ & Hstrict).
  split.
  - exact Hrows.
  - apply Hstrict. repeat constructor; vm_compute; intros H; inversion H; subst;
      repeat match goal with
             | H : _ ∈ _ |- _ => inversion H; clear H; subst
             end.
Defined.

(** A row listed twice is removed twice: the removals are not strictly
    descending, and the second one deletes the row that followed. *)
Lemma delete_repeated_row_not_strict :
  let s := the_editor true false [100; 100] [1; 1] in
  let o := keyPressEvent (imports := quiet) Key_Delete s in
  removed_rows (calls o) = [1; 1] /\
  ~ StronglySorted Z.gt (removed_rows (calls o)) /\
  value (after o) = ["ann"]%string.
Proof.
  intros s o. split; [reflexivity |]. split; [| reflexivity].
  change (removed_rows (calls o)) with [1; 1].
  intros H. apply StronglySorted_inv in H as [_ H].
  apply Forall_inv in H. vm_compute in H. discriminate.
Qed.

(** ** Column widths *)


Lemma resizing_guard_witness :
  let s := the_editor false false [100; 100] [] in
  let o := resizeColumnsToContents (imports := quiet) 1 s in
  result o = Ok tt /\
  _user_widths (control (after o)) = None /\
  _is_resizing (control (after o)) = false /\
  section_sizes (control (after o)) = [80; 30].
Proof.
  intros s o.
  destruct (resizing_guard_spec (imports := quiet)) as (_ & _ & H & _).
  destruct (H 0%nat s (the_factory false false) eq_refl eq_refl)
    as (Hres & Hu & Hr).
  split; [exact Hres |]. split; [exact Hu |]. split; [exact Hr |].
  reflexivity.
Defined.

(** A resize made by [restore_prefs] is outside [_resizing]: the slot
    records the restored widths although the user resized nothing. *)
Lemma restore_prefs_records_widths :
  let s := the_editor false true [100; 100] [] in
  let o := restore_prefs (imports := quiet) 2
             {[ "cached_widths"%string := [120; 80] ]} s in
  _user_widths (control s) = None /\
  result o = Ok tt /\
  _user_widths (control (after o)) = Some [Some 120; Some 80].
Proof. vm_compute. repeat split; reflexivity. Qed.

(** ** The column context menu *)

Lemma on_column_context_menu_witness :
  let s := the_editor false false [100; 100] [] in
  calls (_on_column_context_menu (5, 5) s)
  = [create_menu menu; exec_ menu (15, 25) (Some {| context_column := 0 |})] /\
  _menu_context (after (_on_column_context_menu (5, 5) s)) = None /\
  column_right_clicked (after (_on_column_context_menu (105, 5) s))
  = Some {| row := 0; column := 1 |}.
Proof.
  intros s.
  destruct (on_column_context_menu_spec s (5, 5)) as [Hmenu _].
  destruct (Hmenu menu eq_refl) as (Hcalls & _ & _ & Hctx).
  destruct (on_column_context_menu_spec s (105, 5)) as [_ Hclick].
  split; [exact Hcalls |]. split; [exact Hctx |].
  rewrite (Hclick eq_refl). reflexivity.
Defined.

(** A menu whose execution raises: the exception leaves the handler and the
    context of the menu is still set afterwards. *)
Lemma failing_menu_keeps_context :
  let s := ObjectExample.with_column_menu ObjectExample.failing_menu
             (the_editor false false [100; 100] []) in
  let o := _on_column_context_menu (5, 5) s in
  _menu_context s = None /\
  calls o
  = [create_menu ObjectExample.failing_menu;
     exec_ ObjectExample.failing_menu (15, 25)
       (Some {| context_column := 0 |})] /\
  result o = Raise (Failure "boom") /\
  _menu_context (after o) = Some {| context_column := 0 |} /\
  _menu_context (after o) <> None.
Proof. vm_compute. repeat split; [reflexivity .. | discriminate]. Qed.

(** ** Preferences *)



(** The same happens whatever [compute_column_widths] is, as long as it
    returns a width for every column: the layout run for column 1 cannot
    see the width column 0 had, so it cannot give it back for two editors
    that differ in that width. *)
Lemma relayout_for_any_helper (imports : Imports string) :
  (forall a r m u, length (compute_column_widths a r m u) = length r) ->
  exists s0 s1 : TabularEditor string,
    length (columns (adapter s1)) = length (columns (adapter s0)) /\
    factory s1 = Some (the_factory false false) /\
    _user_widths (control s1) = None /\
    result (restore_prefs 2 (save_prefs s0) s1) = Ok tt /\
    columnWidth (control (after (restore_prefs 2 (save_prefs s0) s1))) 0
    <> columnWidth (control s0) 0.
Proof.
  intros Hlen.
  pose (W := compute_column_widths 300
               [get_width the_adapter 0; get_width the_adapter 1]
               [(80 # 1)%Q; inject_Z 30] (Some [None; Some 200])).
  assert (HW : length W = 2%nat) by (subst W; rewrite Hlen; reflexivity).
  destruct W as [|w0 [|w1 [|? ?]]] eqn:EW; try discriminate. clear HW.
  exists (the_editor false false [w0 + 1; 200] []),
         (the_editor false false [w0 + 1; 50] []).
  split; [reflexivity |]. split; [reflexivity |]. split; [reflexivity |].
  set (s1 := the_editor false false [w0 + 1; 50] []).
  unfold restore_prefs. rewrite save_prefs_lookup, bind_gets.
  change (map _ (seq 0 _)) with [w0 + 1; 200].
  change (length (columns (adapter s1))) with 2%nat.
  change (decide (2%nat = length [w0 + 1; 200]))
    with (left (B := 2%nat <> 2%nat) (eq_refl 2%nat)).
  cbv iota.
  change (for_each (seq 0 2) ?body)
    with (bind (body 0%nat) (fun _ => bind (body 1%nat) (fun _ => ret tt))).
  cbv beta.
  erewrite bind_run.
  2:{ rewrite bind_lift.
      change (getitem [w0 + 1; 200] 0) with (Ok (w0 + 1)). cbv iota beta.
      apply setColumnWidth_same. reflexivity. }
  erewrite (bind_run (bind _ _)).
  2:{ rewrite bind_lift.
      change (getitem [w0 + 1; 200] 1) with (Ok 200). cbv iota beta.
      apply (setColumnWidth_relayout 0 1 50 200 s1 (the_factory false false));
        try reflexivity; [discriminate | cbn; lia]. }
  unfold result, after, ret. cbn [fst snd].
  split; [reflexivity |].
  unfold columnWidth, relayout. cbn [control with_control section_sizes
    with_is_resizing with_section_sizes].
  change (computed_widths _) with W. subst W. rewrite EW.
  cbn. lia.
Qed.

(** * Further properties *)

Section MoreProperties.

Context {Item : Type} {Item_eq : EqDecision Item} {imports : Imports Item}.

Local Abbreviation Method := (M Item).
Local Abbreviation Editor := (TabularEditor Item).
Local Abbreviation ObjectMethod := (MO Item).
Local Abbreviation Object := (EditorObject Item).

(** ** Handlers leave the editor's traits alone *)

Lemma scroll_to_row_changed_after (r : Z) (s : Editor) :
  after (_scroll_to_row_changed r s) = s.
Proof.
  unfold _scroll_to_row_changed, get_factory, bind, gets, ret, raise, call,
    after.
  destruct (factory s); reflexivity.
Qed.

Lemma selected_row_changed_after (r : Z) (s : Editor) :
  after (_selected_row_changed r s) = s.
Proof.
  unfold _selected_row_changed. rewrite bind_gets.
  destruct (_no_update s); [reflexivity |]. cbn [negb].
  destruct (r <? 0); [reflexivity |].
  rewrite bind_gets, bind_call. unfold after at 1. cbn [fst snd].
  apply scroll_to_row_changed_after.
Qed.

Lemma selected_row_changed_calls (r : Z) (s : Editor) (f : Factory) :
  _no_update s = false ->
  factory s = Some f ->
  _selected_row_changed r s
  = (Ok tt, s,
     if r <? 0 then [clearSelection]
     else [select r (Z.max (selected_column s) 0) ClearAndSelect_Rows;
           scrollTo r (Z.max (selected_column s) 0)
             (default EnsureVisible
                (SCROLL_TO_POSITION_HINT_MAP !! scroll_to_position_hint f))]).
Proof.
  intros Hu Hf. unfold _selected_row_changed.
  rewrite bind_gets, Hu. cbn [negb].
  destruct (r <? 0); [reflexivity |].
  rewrite bind_gets, bind_call.
  unfold set_scroll_to_row, _scroll_to_row_changed.
  erewrite bind_run by (apply get_factory_run; exact Hf).
  rewrite bind_gets. reflexivity.
Qed.

Lemma selected_changed_after (new : option Item) (s : Editor) :
  after (_selected_changed new s) = s.
Proof.
  unfold _selected_changed. rewrite bind_gets.
  destruct (_no_update s); [reflexivity |]. cbn [negb].
  destruct new as [x|]; [| apply selected_row_changed_after].
  unfold try_except_else. rewrite bind_gets. unfold lift at 1.
  destruct (list_index (value s) x) as [i|e].
  - pose proof (selected_row_changed_after i s) as Hi.
    destruct (_selected_row_changed i s) as [[r1 s1] t1]. exact Hi.
  - unfold lift. reflexivity.
Qed.

Lemma for_each_call {A} (g : A -> Call) (l : list A) (s : Editor) :
  for_each l (fun x => call (g x)) s = (Ok tt, s, map g l).
Proof.
  induction l as [|x l IH]; [reflexivity |].
  simpl. rewrite bind_call, IH. reflexivity.
Qed.

(** ** [values.index]: the first equal item *)

Lemma list_index_first (values : list Item) (x : Item) (n : nat) :
  values !! n = Some x ->
  (forall j y, (j < n)%nat -> values !! j = Some y -> y <> x) ->
  list_index values x = Ok (Z.of_nat n).
Proof.
  intros Hn Hfirst. unfold list_index.
  destruct (list_find (fun y => y = x) values) as [[i y]|] eqn:Hfind.
  - apply list_find_Some in Hfind as (Hi & -> & Hbefore).
    destruct (Nat.lt_trichotomy i n) as [Hlt|[->|Hgt]].
    + exfalso. exact (Hfirst i x Hlt Hi eq_refl).
    + reflexivity.
    + exfalso. exact (Hbefore n x Hn Hgt eq_refl).
  - apply list_find_None in Hfind. rewrite Forall_forall in Hfind.
    exfalso. apply (Hfind x); [| reflexivity].
    eapply list_elem_of_lookup_2. exact Hn.
Qed.

Lemma list_index_NoDup (values : list Item) (x : Item) (n : nat) :
  NoDup values ->
  values !! n = Some x ->
  list_index values x = Ok (Z.of_nat n).
Proof.
  intros Hnd Hn. apply list_index_first; [exact Hn |].
  intros j y Hj Hy ->.
  assert (j = n) by (eapply NoDup_lookup; eassumption). lia.
Qed.

(** X1.  When the assigned item occurs in the edited list,
    [_selected_changed] selects the first row holding an equal item, also
    when the item occurs again further down, and scrolls to it. *)
Theorem selected_changed_selects_first (s : Editor) (f : Factory) (x : Item)
    (n : nat) :
  _no_update s = false ->
  factory s = Some f ->
  value s !! n = Some x ->
  (forall j y, (j < n)%nat -> value s !! j = Some y -> y <> x) ->
  _selected_changed (Some x) s
  = (Ok tt, s,
     [select (Z.of_nat n) (Z.max (selected_column s) 0) ClearAndSelect_Rows;
      scrollTo (Z.of_nat n) (Z.max (selected_column s) 0)
        (default EnsureVisible
           (SCROLL_TO_POSITION_HINT_MAP !! scroll_to_position_hint f))]).
Proof.
  intros Hu Hf Hn Hfirst. unfold _selected_changed.
  rewrite bind_gets, Hu. cbn [negb].
  unfold try_except_else. rewrite bind_gets. unfold lift.
  rewrite (list_index_first _ _ _ Hn Hfirst).
  rewrite (selected_row_changed_calls _ _ f Hu Hf).
  assert (Hneg : (Z.of_nat n <? 0) = false) by (apply Z.ltb_ge; lia).
  rewrite Hneg. reflexivity.
Qed.

(** ** From the widget to the trait and back *)

Lemma on_row_selection_run (s : Editor) (first : Z) (rest : list Z)
    (item : option Item) :
  selectedRows (control s) = first :: rest ->
  get_item (adapter s) (value s) first = Ok item ->
  _on_row_selection s
  = (Ok tt,
     with_no_update false
       (with_selected item (with_selected_row first (with_no_update true s))),
     []).
Proof.
  intros Hrows Hitem. unfold _on_row_selection.
  rewrite bind_modify, try_finally_modify.
  set (s1 := with_no_update true s).
  rewrite bind_gets.
  change (selectedRows (control s1)) with (selectedRows (control s)).
  rewrite Hrows.
  erewrite bind_run by (apply set_selected_row_no_update; reflexivity).
  rewrite !bind_gets.
  change (get_item (adapter (with_selected_row first s1))
            (value (with_selected_row first s1))
            (selected_row (with_selected_row first s1)))
    with (get_item (adapter s) (value s) first).
  rewrite Hitem. erewrite bind_run by reflexivity.
  rewrite set_selected_no_update by reflexivity.
  reflexivity.
Qed.

(** X2.  With an adapter that returns the list's rows and a list without
    repeated items, the selection made in the widget survives the round
    trip: after the selection callback has set [selected] from row n,
    applying [selected] again (as [update_editor] does) selects row n. *)
Theorem row_selection_round_trip (s : Editor) (f : Factory) (n : nat)
    (rest : list Z) (x : Item) :
  factory s = Some f ->
  selectedRows (control s) = Z.of_nat n :: rest ->
  get_item (adapter s) (value s) (Z.of_nat n) = Ok (Some x) ->
  value s !! n = Some x ->
  NoDup (value s) ->
  let s' := after (_on_row_selection s) in
  selected s' = Some x /\
  selected_row s' = Z.of_nat n /\
  _selected_changed (selected s') s'
  = (Ok tt, s',
     [select (Z.of_nat n) (Z.max (selected_column s) 0) ClearAndSelect_Rows;
      scrollTo (Z.of_nat n) (Z.max (selected_column s) 0)
        (default EnsureVisible
           (SCROLL_TO_POSITION_HINT_MAP !! scroll_to_position_hint f))]).
Proof.
  intros Hf Hrows Hitem Hn Hnd s'. subst s'.
  rewrite (on_row_selection_run s _ rest _ Hrows Hitem).
  unfold after. cbn [fst snd].
  set (s' := with_no_update false _).
  split; [reflexivity |]. split; [reflexivity |].
  change (selected s') with (Some x).
  unfold _selected_changed. rewrite bind_gets.
  change (_no_update s') with false. cbn [negb].
  unfold try_except_else. rewrite bind_gets. unfold lift.
  change (value s') with (value s).
  rewrite (list_index_NoDup _ _ _ Hnd Hn).
  rewrite (selected_row_changed_calls _ s' f eq_refl Hf).
  assert (Hneg : (Z.of_nat n <? 0) = false) by (apply Z.ltb_ge; lia).
  rewrite Hneg. reflexivity.
Qed.

(** ** The monad of the editor object *)

Lemma obind_gets {A B} (g : Object -> A) (k : A -> ObjectMethod B) (o : Object) :
  obind (ogets g) k o = k (g o) o.
Proof.
  unfold obind, ogets. destruct (k (g o) o) as [[r o1] t1]. reflexivity.
Qed.

Lemma obind_modify {A} (g : Object -> Object) (k : ObjectMethod A) (o : Object) :
  obind (omodify g) (fun _ => k) o = k (g o).
Proof.
  unfold obind, omodify. destruct (k (g o)) as [[r o1] t1]. reflexivity.
Qed.

Lemma obind_ret {A B} (a : A) (k : A -> ObjectMethod B) (o : Object) :
  obind (oret a) k o = k a o.
Proof.
  unfold obind, oret. destruct (k a o) as [[r o1] t1]. reflexivity.
Qed.

Lemma obind_call {A} (c : EditorCall) (k : ObjectMethod A) (o : Object) :
  obind (ocall c) (fun _ => k) o
  = (oresult (k o), oafter (k o), c :: ocalls (k o)).
Proof.
  unfold obind, ocall, oresult, oafter, ocalls.
  destruct (k o) as [[r o1] t1]. reflexivity.
Qed.

Lemma obind_run {A B} (m : ObjectMethod A) (k : A -> ObjectMethod B)
    (o o1 : Object) (a : A) (t1 : list EditorCall) :
  m o = (Ok a, o1, t1) ->
  obind m k o = (oresult (k a o1), oafter (k a o1), t1 ++ ocalls (k a o1)).
Proof.
  intros Hm. unfold obind, oresult, oafter, ocalls. rewrite Hm.
  destruct (k a o1) as [[r o2] t2]. reflexivity.
Qed.

Lemma obind_raise {A B} (m : ObjectMethod A) (k : A -> ObjectMethod B)
    (o o1 : Object) (e : Exn) (t1 : list EditorCall) :
  m o = (Raise e, o1, t1) -> obind m k o = (Raise e, o1, t1).
Proof. intros Hm. unfold obind. rewrite Hm. reflexivity. Qed.

Lemma obind_lift {A B} (r : Res A) (k : A -> ObjectMethod B) (o : Object) :
  obind (olift r) k o
  = match r with Ok a => k a o | Raise e => (Raise e, o, []) end.
Proof.
  unfold obind, olift. destruct r as [a|e]; [| reflexivity].
  destruct (k a o) as [[r o1] t1]. reflexivity.
Qed.

Lemma on_editor_run {A} (m : Method A) (o : Object) (r : Res A) (e : Editor)
    (t : list Call) :
  m (editor o) = (r, e, t) ->
  on_editor m o = (r, with_editor e o, base_call <$> t).
Proof. intros Hm. unfold on_editor. rewrite Hm. reflexivity. Qed.

Lemma with_editor_id (o : Object) : with_editor (editor o) o = o.
Proof. destruct o. reflexivity. Qed.

Lemma on_editor_factory (o : Object) (f : Factory) :
  factory (editor o) = Some f ->
  on_editor get_factory o = (Ok f, o, []).
Proof.
  intros Hf. erewrite on_editor_run by (apply get_factory_run; exact Hf).
  rewrite with_editor_id. reflexivity.
Qed.

(** ** Updating the editor after an external change *)

Lemma update_editor_outside (o : Object) (f : Factory) :
  _no_update (editor o) = false ->
  factory (editor o) = Some f ->
  update_editor o
  = (let run :=
       (if multi_select f
        then on_editor (_multi_selected_changed (multi_selected (editor o)))
        else on_editor (_selected_changed (selected (editor o)))) o in
     (oresult run, oafter run, beginResetModel :: endResetModel :: ocalls run)).
Proof.
  intros Hu Hf. unfold update_editor. rewrite obind_gets, Hu. cbn [negb].
  rewrite obind_call. unfold oresult at 1, oafter at 1, ocalls at 1.
  rewrite obind_call. unfold oresult at 1, oafter at 1, ocalls at 1.
  erewrite obind_run by (apply on_editor_factory; exact Hf).
  cbn [app]. destruct (multi_select f); rewrite obind_gets; reflexivity.
Qed.

(** X3.  [update_editor] does nothing inside a [_no_update] region.
    Outside, it resets the model and then applies the selection trait again:
    in single-select mode it clears the selection for None and selects the
    first row holding the selected item; in multi-select mode, when one of
    the selected items is no longer in the list, the reset is all it does
    and the widget's selection is not touched. *)
Theorem update_editor_spec (o : Object) (f : Factory) :
  factory (editor o) = Some f ->
  (_no_update (editor o) = true -> update_editor o = (Ok tt, o, [])) /\
  (_no_update (editor o) = false ->
   multi_select f = false ->
   selected (editor o) = None ->
   update_editor o
   = (Ok tt, o,
      [beginResetModel; endResetModel; base_call clearSelection])) /\
  (forall (x : Item) (n : nat),
      _no_update (editor o) = false ->
      multi_select f = false ->
      selected (editor o) = Some x ->
      value (editor o) !! n = Some x ->
      (forall j y, (j < n)%nat -> value (editor o) !! j = Some y -> y <> x) ->
      let column := Z.max (selected_column (editor o)) 0 in
      update_editor o
      = (Ok tt, o,
         [beginResetModel; endResetModel;
          base_call (select (Z.of_nat n) column ClearAndSelect_Rows);
          base_call
            (scrollTo (Z.of_nat n) column
               (default EnsureVisible
                  (SCROLL_TO_POSITION_HINT_MAP
                     !! scroll_to_position_hint f)))])) /\
  (_no_update (editor o) = false ->
   multi_select f = true ->
   Exists (fun i => i ∉ value (editor o)) (multi_selected (editor o)) ->
   update_editor o = (Ok tt, o, [beginResetModel; endResetModel])).
Proof.
  intros Hf. split; [| split; [| split]].
  - intros Hu. unfold update_editor. rewrite obind_gets, Hu. reflexivity.
  - intros Hu Hm Hsel. rewrite (update_editor_outside o f Hu Hf), Hm, Hsel.
    erewrite on_editor_run.
    2:{ unfold _selected_changed. rewrite bind_gets, Hu. cbn [negb].
        apply (selected_row_changed_calls _ _ f Hu Hf). }
    rewrite with_editor_id. reflexivity.
  - intros x n Hu Hm Hsel Hn Hfirst column.
    rewrite (update_editor_outside o f Hu Hf), Hm, Hsel.
    erewrite on_editor_run.
    2:{ unfold _selected_changed. rewrite bind_gets, Hu. cbn [negb].
        unfold try_except_else. rewrite bind_gets. unfold lift.
        rewrite (list_index_first _ _ _ Hn Hfirst).
        rewrite (selected_row_changed_calls _ _ f Hu Hf).
        assert (Hneg : (Z.of_nat n <? 0) = false) by (apply Z.ltb_ge; lia).
        rewrite Hneg. reflexivity. }
    rewrite with_editor_id. reflexivity.
  - intros Hu Hm Hex. rewrite (update_editor_outside o f Hu Hf), Hm.
    erewrite on_editor_run.
    2:{ unfold _multi_selected_changed. rewrite bind_gets, Hu. cbn [negb].
        rewrite bind_gets. unfold try_except_else.
        rewrite (comprehension_index_missing _ _ _ Hex). reflexivity. }
    rewrite with_editor_id. reflexivity.
Qed.

(** ** Multiple selection from the trait side *)

Lemma comprehension_index_found (values new : list Item) (rows : list Z)
    (s : Editor) :
  Forall2 (fun x r => list_index values x = Ok r) new rows ->
  comprehension (fun i => lift (list_index values i)) new s = (Ok rows, s, []).
Proof.
  induction 1 as [|x r new rows Hx Hrest IH]; [reflexivity |].
  simpl. rewrite bind_lift, Hx.
  erewrite bind_run by exact IH. reflexivity.
Qed.

Lemma multi_selected_changed_after (new : list Item) (s : Editor) :
  after (_multi_selected_changed new s) = s.
Proof.
  unfold _multi_selected_changed. rewrite bind_gets.
  destruct (_no_update s) eqn:Hu; [reflexivity |]. cbn [negb].
  rewrite bind_gets. unfold try_except_else.
  pose proof (comprehension_index_pure (value s) new s) as [Ha Hc].
  destruct (comprehension _ new s) as [[[rows|e] s1] t1];
    unfold after in Ha; simpl in Ha; subst s1; [| reflexivity].
  unfold _multi_selected_rows_changed. rewrite bind_gets, Hu. reflexivity.
Qed.

(** X4.  When every item is in the list, [_multi_selected_changed] clears
    the widget's selection and selects the rows of the items' first
    occurrences, in the order given, and [_multi_selected_items_changed]
    deselects the rows of the removed items before it selects the rows of
    the added ones.  Inside a [_no_update] region neither touches the
    widget, whatever the items are. *)
Theorem multi_selection_handlers (s : Editor) :
  (forall (new : list Item) (rows : list Z),
      _no_update s = false ->
      Forall2 (fun x r => list_index (value s) x = Ok r) new rows ->
      _multi_selected_changed new s
      = (Ok tt, s, [clearSelection; select_selection rows Select_Rows])) /\
  (forall (event : TraitListEvent Item) (rows_added rows_removed : list Z),
      _no_update s = false ->
      Forall2 (fun x r => list_index (value s) x = Ok r)
        (added event) rows_added ->
      Forall2 (fun x r => list_index (value s) x = Ok r)
        (removed event) rows_removed ->
      _multi_selected_items_changed event s
      = (Ok tt, s,
         map (fun r => select r 0 Deselect_Rows) rows_removed
         ++ map (fun r => select r 0 Select_Rows) rows_added)) /\
  (_no_update s = true ->
   (forall new : list Item, _multi_selected_changed new s = (Ok tt, s, [])) /\
   (forall event : TraitListEvent Item,
       _multi_selected_items_changed event s = (Ok tt, s, []))).
Proof.
  split; [| split].
  - intros new rows Hu Hrows. unfold _multi_selected_changed.
    rewrite bind_gets, Hu. cbn [negb]. rewrite bind_gets.
    unfold try_except_else.
    rewrite (comprehension_index_found _ _ _ _ Hrows).
    unfold _multi_selected_rows_changed. rewrite bind_gets, Hu. reflexivity.
  - intros event rows_added rows_removed Hu Hadd Hrem.
    unfold _multi_selected_items_changed. rewrite bind_gets.
    unfold try_except_else.
    erewrite bind_run by (apply comprehension_index_found; exact Hadd).
    erewrite bind_run by (apply comprehension_index_found; exact Hrem).
    cbn [result after calls ret fst snd app].
    unfold _multi_selected_rows_items_changed. rewrite bind_gets, Hu.
    cbn [negb removed added fst snd].
    erewrite bind_run by apply for_each_call.
    rewrite for_each_call. reflexivity.
  - intros Hu. split.
    + intros new. unfold _multi_selected_changed.
      rewrite bind_gets, Hu. reflexivity.
    + intros event. unfold _multi_selected_items_changed.
      rewrite bind_gets. unfold try_except_else.
      pose proof (comprehension_index_pure (value s) (added event) s)
        as [Ha Hc].
      unfold bind at 1.
      destruct (comprehension _ (added event) s) as [[[rows|e] s1] t1];
        unfold after, calls in Ha, Hc; simpl in Ha, Hc; subst;
        [| reflexivity].
      pose proof (comprehension_index_pure (value s) (removed event) s)
        as [Ha Hc].
      unfold bind at 1.
      destruct (comprehension _ (removed event) s) as [[[rows'|e] s1] t1];
        unfold after, calls in Ha, Hc; simpl in Ha, Hc; subst;
        [| reflexivity].
      cbn [ret app]. unfold _multi_selected_rows_items_changed.
      rewrite bind_gets, Hu. reflexivity.
Qed.

(** ** The selection column, clicks and activation *)

Lemma selected_column_changed_run (c : Z) (s : Editor) (f : Factory) :
  _no_update s = false ->
  factory s = Some f ->
  _selected_column_changed c s
  = (Ok tt, s,
     if 0 <=? c then
       [select (Z.max (selected_row s) 0) c ClearAndSelect_Rows;
        scrollTo (Z.max (selected_row s) 0) c
          (default EnsureVisible
             (SCROLL_TO_POSITION_HINT_MAP !! scroll_to_position_hint f))]
     else []).
Proof.
  intros Hu Hf. unfold _selected_column_changed.
  rewrite bind_gets, Hu. cbn [negb].
  destruct (0 <=? c); [| reflexivity].
  rewrite bind_gets, bind_call.
  unfold set_scroll_to_column, _scroll_to_column_changed.
  erewrite bind_run by (apply get_factory_run; exact Hf).
  rewrite bind_gets. reflexivity.
Qed.

Lemma selected_column_changed_no_update (c : Z) (s : Editor) :
  _no_update s = true -> _selected_column_changed c s = (Ok tt, s, []).
Proof.
  intros Hu. unfold _selected_column_changed. rewrite bind_gets, Hu.
  reflexivity.
Qed.

(** X5.  Outside a [_no_update] region a new [selected_column] c >= 0
    selects the cell of row max(selected_row, 0) in column c with
    ClearAndSelect | Rows and scrolls to it.  A negative column does
    nothing: unlike a negative [selected_row] it does not clear the widget's
    selection. *)
Theorem selected_column_changed_spec (s : Editor) (f : Factory) (c : Z) :
  _no_update s = false ->
  factory s = Some f ->
  (0 <= c ->
   _selected_column_changed c s
   = (Ok tt, s,
      [select (Z.max (selected_row s) 0) c ClearAndSelect_Rows;
       scrollTo (Z.max (selected_row s) 0) c
         (default EnsureVisible
            (SCROLL_TO_POSITION_HINT_MAP !! scroll_to_position_hint f))])) /\
  (c < 0 ->
   _selected_column_changed c s = (Ok tt, s, []) /\
   _selected_row_changed c s = (Ok tt, s, [clearSelection])).
Proof.
  intros Hu Hf. split.
  - intros Hc. rewrite (selected_column_changed_run c s f Hu Hf).
    assert (Hb : (0 <=? c) = true) by (apply Z.leb_le; exact Hc).
    rewrite Hb. reflexivity.
  - intros Hc. rewrite (selected_column_changed_run c s f Hu Hf).
    rewrite (selected_row_changed_calls c s f Hu Hf).
    assert (Hb : (0 <=? c) = false) by (apply Z.leb_gt; exact Hc).
    assert (Hb' : (c <? 0) = true) by (apply Z.ltb_lt; exact Hc).
    rewrite Hb, Hb'. split; reflexivity.
Qed.

Lemma set_selected_row_state (r : Z) (s : Editor) (f : Factory) :
  factory s = Some f ->
  result (set_selected_row r s) = Ok tt /\
  after (set_selected_row r s) = with_selected_row r s /\
  (_no_update s = true -> calls (set_selected_row r s) = []).
Proof.
  intros Hf. unfold set_selected_row. rewrite bind_gets, bind_modify.
  destruct (decide (selected_row s = r)); [repeat split |].
  destruct (_no_update s) eqn:Hu.
  - rewrite (notify_ok _ _ _ _
               (selected_row_changed_no_update r (with_selected_row r s) Hu)).
    repeat split.
  - rewrite (notify_ok _ _ _ _
               (selected_row_changed_calls r (with_selected_row r s) f Hu Hf)).
    repeat split. discriminate.
Qed.

Lemma set_selected_column_state (c : Z) (s : Editor) (f : Factory) :
  factory s = Some f ->
  result (set_selected_column c s) = Ok tt /\
  after (set_selected_column c s) = with_selected_column c s /\
  (_no_update s = true -> calls (set_selected_column c s) = []).
Proof.
  intros Hf. unfold set_selected_column. rewrite bind_gets, bind_modify.
  destruct (decide (selected_column s = c)); [repeat split |].
  destruct (_no_update s) eqn:Hu.
  - rewrite (notify_ok _ _ _ _
               (selected_column_changed_no_update c
                  (with_selected_column c s) Hu)).
    repeat split.
  - rewrite (notify_ok _ _ _ _
               (selected_column_changed_run c (with_selected_column c s) f
                  Hu Hf)).
    repeat split. discriminate.
Qed.

Lemma on_editor_state {A} (m : Method A) (o : Object) (a : A) (e : Editor) :
  result (m (editor o)) = Ok a ->
  after (m (editor o)) = e ->
  on_editor m o = (Ok a, with_editor e o, base_call <$> calls (m (editor o))).
Proof.
  intros Hr Ha. unfold on_editor, result, after, calls in *.
  destruct (m (editor o)) as [[r e'] t]. simpl in *. subst. reflexivity.
Qed.

Lemma clicked_changed_single (o : Object) (f : Factory)
    (event : TabularEditorEvent) :
  factory (editor o) = Some f ->
  multi_select f = false ->
  event_traits o !! "clicked"%string = Some event ->
  let e1 := with_selected_row (row event) (editor o) in
  let e2 := with_selected_column (column event) e1 in
  _clicked_changed o
  = (Ok tt, with_editor e2 o,
     (base_call <$> calls (set_selected_row (row event) (editor o)))
     ++ (base_call <$> calls (set_selected_column (column event) e1))).
Proof.
  intros Hf Hm Hev e1 e2. unfold _clicked_changed.
  erewrite obind_run by (apply on_editor_factory; exact Hf).
  rewrite Hm. cbn [negb app].
  assert (Hget : forall o' : Object,
             event_traits o' = event_traits o ->
             get_event "clicked" o' = (Ok event, o', [])).
  { intros o' Ho'. unfold get_event. rewrite obind_gets, Ho', Hev.
    reflexivity. }
  erewrite obind_run by (apply Hget; reflexivity). cbn [app].
  destruct (set_selected_row_state (row event) (editor o) f Hf)
    as (Hr1 & Ha1 & _).
  erewrite obind_run by (apply on_editor_state; [exact Hr1 | exact Ha1]).
  erewrite obind_run by (apply Hget; reflexivity). cbn [app].
  fold e1.
  destruct (set_selected_column_state (column event) e1 f Hf)
    as (Hr2 & Ha2 & _).
  erewrite (on_editor_state _ (with_editor e1 o)) by
    (first [exact Hr2 | exact Ha2]).
  unfold oresult, oafter, ocalls. cbn [fst snd].
  reflexivity.
Qed.

(** X6.  A click stores the event under [clicked].  In single-select mode it
    then makes the clicked cell the selection: [selected_row] and
    [selected_column] become the row and column of the click, without any
    widget call inside a [_no_update] region.  In multi-select mode it
    leaves the editor and the widget alone, and a double click does so in
    every mode. *)
Theorem on_click_spec (o : Object) (f : Factory) (index : Z * Z) :
  factory (editor o) = Some f ->
  let event := {| row := index.1; column := index.2 |} in
  let r := _on_click index o in
  oresult r = Ok tt /\
  event_traits (oafter r) !! "clicked"%string = Some event /\
  (multi_select f = true -> editor (oafter r) = editor o /\ ocalls r = []) /\
  (multi_select f = false ->
   selected_row (editor (oafter r)) = index.1 /\
   selected_column (editor (oafter r)) = index.2 /\
   (_no_update (editor o) = true -> ocalls r = [])) /\
  _on_dclick index o
  = (Ok tt,
     with_event_traits (<["dclicked"%string := event]> (event_traits o)) o,
     []).
Proof.
  intros Hf event r. subst r.
  unfold _on_click, _on_dclick, _mouse_click, set_event. fold event.
  rewrite !obind_modify.
  change (String.eqb "clicked" "clicked") with true.
  change (String.eqb "dclicked" "clicked") with false.
  change (String.eqb "dclicked" "column_clicked") with false.
  cbv iota.
  set (o1 := with_event_traits (<["clicked"%string := event]> (event_traits o)) o).
  assert (Hev : event_traits o1 !! "clicked"%string = Some event)
    by apply lookup_insert_eq.
  destruct (multi_select f) eqn:Hm.
  - assert (Hrun : _clicked_changed o1 = (Ok tt, o1, [])).
    { unfold _clicked_changed.
      erewrite obind_run by (apply (on_editor_factory o1 f); exact Hf).
      rewrite Hm. reflexivity. }
    rewrite Hrun. unfold oresult, oafter, ocalls. cbn [fst snd].
    repeat split; try discriminate; try exact Hev.
  - rewrite (clicked_changed_single o1 f event Hf Hm Hev).
    unfold oresult, oafter, ocalls. cbn [fst snd].
    repeat split; try discriminate; try exact Hev.
    intros Hu. cbn [row column event].
    destruct (set_selected_row_state index.1 (editor o) f Hf) as (_ & _ & Hc1).
    destruct (set_selected_column_state index.2
                (with_selected_row index.1 (editor o)) f Hf) as (_ & _ & Hc2).
    change (editor o1) with (editor o).
    rewrite (Hc1 Hu), (Hc2 Hu). reflexivity.
Qed.

(** X7.  Activating a cell first stores its row in [activated_row] and then
    the adapter's item in [activated]; it calls nothing and leaves the
    editor's other traits alone.  When the adapter raises, the row has been
    stored already and [activated] keeps the item of the earlier
    activation. *)
Theorem on_activate_spec (o : Object) (index : Z * Z) :
  let r := _on_activate index o in
  activated_row (oafter r) = index.1 /\
  editor (oafter r) = editor o /\
  ocalls r = [] /\
  match get_item (adapter (editor o)) (value (editor o)) index.1 with
  | Ok item => oresult r = Ok tt /\ activated (oafter r) = item
  | Raise e => oresult r = Raise e /\ activated (oafter r) = activated o
  end.
Proof.
  intros r. subst r. unfold _on_activate.
  rewrite obind_modify, !obind_gets.
  change (get_item (adapter (editor (with_activated_row index.1 o)))
            (value (editor (with_activated_row index.1 o))) index.1)
    with (get_item (adapter (editor o)) (value (editor o)) index.1).
  destruct (get_item (adapter (editor o)) (value (editor o)) index.1)
    as [item|e].
  - erewrite obind_run by reflexivity. repeat split.
  - erewrite obind_raise by reflexivity. repeat split.
Qed.

(** ** The user widths after the adapter's columns change *)

Lemma update_editor_after (o : Object) : oafter (update_editor o) = o.
Proof.
  unfold update_editor. rewrite obind_gets.
  destruct (_no_update (editor o)); [reflexivity |]. cbn [negb].
  rewrite obind_call. unfold oafter at 1. cbn [fst snd].
  rewrite obind_call. unfold oafter at 1. cbn [fst snd].
  destruct (factory (editor o)) as [f|] eqn:Hf.
  - erewrite obind_run by (apply on_editor_factory; exact Hf).
    unfold oafter at 1. cbn [fst snd].
    destruct (multi_select f); rewrite obind_gets; unfold on_editor, oafter.
    + pose proof (multi_selected_changed_after
                    (multi_selected (editor o)) (editor o)) as Ha.
      destruct (_multi_selected_changed _ _) as [[r e] t].
      unfold after in Ha. simpl in *. subst e. apply with_editor_id.
    + pose proof (selected_changed_after (selected (editor o)) (editor o))
        as Ha.
      destruct (_selected_changed _ _) as [[r e] t].
      unfold after in Ha. simpl in *. subst e. apply with_editor_id.
  - erewrite obind_raise.
    2:{ unfold on_editor, get_factory. rewrite bind_gets, Hf.
        unfold raise. reflexivity. }
    unfold oafter. cbn [fst snd]. apply with_editor_id.
Qed.

Lemma adapter_columns_updated_after (o : Object) :
  oafter (_adapter_columns_updated o)
  = match _user_widths (control (editor o)) with
    | Some widths =>
        if decide (length widths = length (columns (adapter (editor o))))
        then o
        else with_editor
               (with_control (with_user_widths None (control (editor o)))
                  (editor o)) o
    | None => o
    end.
Proof.
  unfold _adapter_columns_updated. rewrite !obind_gets.
  destruct (_user_widths (control (editor o))) as [widths|].
  - destruct (decide (length widths = length (columns (adapter (editor o))))).
    + rewrite obind_ret. apply update_editor_after.
    + erewrite obind_run by reflexivity.
      unfold oafter at 1. cbn [fst snd]. apply update_editor_after.
  - rewrite obind_ret. apply update_editor_after.
Qed.

(** X8.  After [_adapter_columns_updated] the user widths fit the adapter's
    columns: a record whose length differs from the number of columns is
    dropped, one of the right length is kept as it is, and the adapter is
    not changed. *)
Theorem adapter_columns_updated_fits (o : Object) :
  let o' := oafter (_adapter_columns_updated o) in
  user_widths_fit (editor o') /\
  adapter (editor o') = adapter (editor o) /\
  (user_widths_fit (editor o) ->
   _user_widths (control (editor o')) = _user_widths (control (editor o))) /\
  (~ user_widths_fit (editor o) -> _user_widths (control (editor o')) = None).
Proof.
  intros o'. subst o'. rewrite adapter_columns_updated_after.
  destruct (_user_widths (control (editor o))) as [widths|] eqn:Hw.
  - destruct (decide (length widths = length (columns (adapter (editor o)))))
      as [Hlen|Hlen].
    + split; [| split; [reflexivity | split]].
      * intros w Hw'. rewrite Hw in Hw'. injection Hw' as <-. exact Hlen.
      * intros _. exact Hw.
      * intros Hnot. exfalso. apply Hnot. intros w Hw'.
        rewrite Hw in Hw'. injection Hw' as <-. exact Hlen.
    + split; [| split; [reflexivity | split; [| reflexivity]]].
      * intros w Hw'. discriminate.
      * intros Hfit. exfalso. apply Hlen. apply Hfit. exact Hw.
  - split; [| split; [reflexivity | split]].
    + intros w Hw'. rewrite Hw in Hw'. discriminate.
    + intros _. exact Hw.
    + intros Hnot. exact Hw.
Qed.

(** ** Recording a width *)

(** X9.  A resize by the user of a column in range records the new width
    for that column only: the records of the other columns stay as they
    were, and the record keeps one entry per adapter column. *)
Theorem columnResized_records_one (depth index : nat) (old new : Z)
    (s : Editor) (f : Factory) :
  factory s = Some f ->
  _is_resizing (control s) = false ->
  user_widths_fit s ->
  (index < length (columns (adapter s)))%nat ->
  let o := columnResized (S (S depth)) index old new s in
  result o = Ok tt /\
  user_widths_fit (after o) /\
  exists widths : list (option Z),
    _user_widths (control (after o)) = Some widths /\
    widths !! index = Some (Some new) /\
    forall j : nat,
      j <> index ->
      widths !! j
      = default (replicate (length (columns (adapter s))) None)
          (_user_widths (control s)) !! j.
Proof.
  intros Hf Hr Hfit Hlt o.
  set (before := default (replicate (length (columns (adapter s))) None)
                   (_user_widths (control s))).
  assert (Hlen : length before = length (columns (adapter s))).
  { subst before. destruct (_user_widths (control s)) as [w|] eqn:Hw; simpl.
    - apply Hfit. exact Hw.
    - apply length_replicate. }
  assert (Hlt' : (index < length before)%nat) by (rewrite Hlen; exact Hlt).
  destruct (columnResized_records depth index old new s f Hf Hr Hlt')
    as (Hres & Hu & _ & _ & Had & _).
  fold before in Hu. fold o in Hres, Hu, Had.
  split; [exact Hres |]. split.
  - intros w Hw. rewrite Hu in Hw. injection Hw as <-.
    rewrite length_insert, Had. exact Hlen.
  - exists (<[index := Some new]> before). split; [exact Hu |]. split.
    + apply list_lookup_insert_eq. exact Hlt'.
    + intros j Hj. apply list_lookup_insert_ne. congruence.
Qed.

(** X10.  A resize of a column the record has no entry for, as happens when
    the adapter has fewer columns than the header has sections, raises
    IndexError: no width is recorded, the columns are not laid out again,
    and a record that did not exist yet is left as a list of None. *)
Theorem columnResized_out_of_range (depth index : nat) (old new : Z)
    (s : Editor) :
  _is_resizing (control s) = false ->
  let before := default (replicate (length (columns (adapter s))) None)
                  (_user_widths (control s)) in
  (length before <= index)%nat ->
  columnResized (S depth) index old new s
  = (Raise IndexError,
     with_control (with_user_widths (Some before) (control s)) s,
     []).
Proof.
  intros Hr before Hge.
  rewrite columnResized_step, bind_gets, Hr. cbn [negb]. rewrite bind_gets.
  destruct (_user_widths (control s)) as [w|] eqn:Hw.
  - rewrite bind_ret, bind_gets.
    assert (Hb : before = w) by reflexivity.
    rewrite Hw. change (default [] (Some w)) with w.
    rewrite Hb in *. unfold setitem.
    destruct (decide (index < length w)%nat); [lia |].
    rewrite bind_lift.
    replace (with_control (with_user_widths (Some w) (control s)) s) with s;
      [reflexivity |].
    clear -Hw. destruct s as [? ? ? ? ? ? ? ? ? ? ? ? []].
    simpl in *. subst. reflexivity.
  - erewrite bind_run.
    2:{ rewrite bind_gets. unfold write_user_widths, modify. reflexivity. }
    unfold result, after, calls. cbn [fst snd app].
    rewrite bind_gets.
    assert (Hb : before = replicate (length (columns (adapter s))) None)
      by reflexivity.
    change (default [] (_user_widths (control (with_control _ s))))
      with (replicate (length (columns (adapter s))) (@None Z)).
    rewrite <- Hb. unfold setitem.
    destruct (decide (index < length before)%nat); [lia |].
    rewrite bind_lift. reflexivity.
Qed.

(** ** The keyboard *)

Lemma key_in_enter (key : Key) :
  key_in key [Key_Enter; Key_Return] = true ->
  key_in key [Key_Backspace; Key_Delete] = false /\
  key_in key [Key_Insert] = false.
Proof. destruct key; simpl; intros H; split; congruence. Qed.

(** X11.  Enter or Return opens the cell editor only when the view is not
    editing already, the editor is editable and "edit" is allowed; then the
    row edited is [selected_row], or in multi-select mode the selected row
    when exactly one is selected.  With no such row the event is neither
    accepted nor passed to the toolkit; when editing is not permitted it is
    passed to the toolkit. *)
Theorem keyPressEvent_enter_spec (s : Editor) (f : Factory) (key : Key) :
  factory s = Some f ->
  key_in key [Key_Enter; Key_Return] = true ->
  let target :=
    if multi_select f then
      match multi_selected_rows s with [r] => r | _ => -1 end
    else selected_row s in
  let permitted :=
    negb (editing (control s))
    && (editable f && bool_decide ("edit"%string ∈ operations f)) in
  keyPressEvent key s
  = (Ok tt, s,
     if permitted then
       if target =? -1 then [] else [accept; edit target 0]
     else [QTableView_keyPressEvent key]).
Proof.
  intros Hf Hkey target permitted.
  destruct (key_in_enter key Hkey) as [Hdel Hins].
  unfold keyPressEvent. rewrite bind_gets, Hkey, Hdel, Hins.
  subst permitted. cbn [andb].
  destruct (editing (control s)); cbn [negb andb].
  - rewrite !bind_ret. reflexivity.
  - erewrite bind_run by (apply allows_run; exact Hf).
    unfold result, after, calls. cbn [fst snd app].
    destruct (editable f && bool_decide ("edit"%string ∈ operations f)).
    + erewrite bind_run by (apply get_factory_run; exact Hf).
      unfold result, after, calls. cbn [fst snd app].
      assert (Htarget : (if multi_select f
                         then bind (gets multi_selected_rows)
                                (fun rows =>
                                   ret match rows with [r] => r | _ => -1 end)
                         else gets selected_row) s
                        = (Ok target, s, [])).
      { subst target. destruct (multi_select f); [rewrite bind_gets |];
          reflexivity. }
      erewrite bind_run by exact Htarget.
      unfold result, after, calls. cbn [fst snd app].
      destruct (target =? -1); reflexivity.
    + rewrite !bind_ret. reflexivity.
Qed.

Lemma merge_sort_head_least (rows : list Z) (r : Z) (rest : list Z) :
  merge_sort Z.le rows = r :: rest ->
  r ∈ rows /\ Forall (fun x => r <= x) rows.
Proof.
  intros Hsort.
  assert (Hs : StronglySorted Z.le (merge_sort Z.le rows)).
  { apply StronglySorted_merge_sort; [intros x y z; lia | apply _]. }
  pose proof (merge_sort_Permutation Z.le rows) as Hp.
  rewrite Hsort in Hs, Hp.
  apply StronglySorted_inv in Hs as [_ Hall].
  split.
  - rewrite <- Hp. left.
  - rewrite <- Hp. constructor; [lia | exact Hall].
Qed.

(** X12.  Insert, when the editor is editable and "insert" is allowed,
    inserts a row at [selected_row], in multi-select mode at the smallest
    selected row, and at the end of the list when nothing is selected (a
    selected row -1 counts as nothing); it then makes the new row's first
    cell the current one. *)
Theorem keyPressEvent_insert_spec (s : Editor) (f : Factory) :
  factory s = Some f ->
  editable f = true ->
  "insert"%string ∈ operations f ->
  let first :=
    if multi_select f then
      match merge_sort Z.le (multi_selected_rows s) with
      | r :: _ => r
      | [] => -1
      end
    else selected_row s in
  let target := if first =? -1 then len (adapter s) (value s) else first in
  keyPressEvent Key_Insert s
  = (Ok tt, TabularModel_insertRow target s,
     [accept; insertRow target; setCurrentIndex target 0]) /\
  (multi_select f = true ->
   multi_selected_rows s <> [] ->
   first ∈ multi_selected_rows s /\
   Forall (fun r => first <= r) (multi_selected_rows s)).
Proof.
  intros Hf He Hop first target. split.
  - unfold keyPressEvent. rewrite bind_gets.
    change (key_in Key_Insert [Key_Enter; Key_Return]) with false.
    change (key_in Key_Insert [Key_Backspace; Key_Delete]) with false.
    change (key_in Key_Insert [Key_Insert]) with true.
    cbn [andb]. rewrite !bind_ret.
    erewrite bind_run by (apply allows_run; exact Hf).
    unfold result, after, calls. cbn [fst snd app].
    rewrite He, (bool_decide_eq_true_2 _ Hop). cbn [andb].
    rewrite bind_call.
    erewrite bind_run by (apply get_factory_run; exact Hf).
    unfold result, after, calls. cbn [fst snd app].
    assert (Hfirst : (if multi_select f
                      then bind (gets multi_selected_rows)
                             (fun rows =>
                                ret match merge_sort Z.le rows with
                                    | r :: _ => r
                                    | [] => -1
                                    end)
                      else gets selected_row) s
                     = (Ok first, s, [])).
    { subst first. destruct (multi_select f); [rewrite bind_gets |];
        reflexivity. }
    erewrite bind_run by exact Hfirst.
    unfold result, after, calls. cbn [fst snd app].
    assert (Htarget : (if first =? -1
                       then bind (gets adapter)
                              (fun a => bind (gets value)
                                          (fun values => ret (len a values)))
                       else ret first) s
                      = (Ok target, s, [])).
    { subst target. destruct (first =? -1); [rewrite !bind_gets |];
        reflexivity. }
    erewrite bind_run by exact Htarget.
    unfold result, after, calls. cbn [fst snd app].
    unfold model_insertRow, bind, call, modify. reflexivity.
  - intros Hm Hrows. subst first. rewrite Hm.
    destruct (merge_sort Z.le (multi_selected_rows s)) as [|r rest] eqn:Hsort.
    + exfalso. apply Hrows.
      pose proof (merge_sort_Permutation Z.le (multi_selected_rows s)) as Hp.
      rewrite Hsort in Hp. symmetry in Hp.
      apply Permutation_nil_r in Hp. exact Hp.
    + apply (merge_sort_head_least _ _ _ Hsort).
Qed.

(** X13.  An editor that is not editable never changes the model from the
    keyboard: every key is passed to the toolkit's own handler, and no row
    is removed, inserted or edited. *)
Theorem keyPressEvent_read_only (s : Editor) (f : Factory) (key : Key) :
  factory s = Some f ->
  editable f = false ->
  keyPressEvent key s = (Ok tt, s, [QTableView_keyPressEvent key]) /\
  Forall (fun c => changes_model c = false) (calls (keyPressEvent key s)).
Proof.
  intros Hf He.
  assert (Hrun : keyPressEvent key s = (Ok tt, s, [QTableView_keyPressEvent key])).
  { assert (Hallows : forall name,
               allows name s = (Ok false, s, [])).
    { intros name. rewrite (allows_run name s f Hf), He. reflexivity. }
    unfold keyPressEvent. rewrite bind_gets.
    assert (H1 : (if key_in key [Key_Enter; Key_Return]
                       && negb (editing (control s))
                  then allows "edit" else ret false) s = (Ok false, s, [])).
    { destruct (key_in key [Key_Enter; Key_Return] && negb (editing (control s)));
        [apply Hallows | reflexivity]. }
    erewrite bind_run by exact H1.
    unfold result, after, calls. cbn [fst snd app].
    assert (H2 : (if key_in key [Key_Backspace; Key_Delete]
                  then allows "delete" else ret false) s = (Ok false, s, [])).
    { destruct (key_in key [Key_Backspace; Key_Delete]);
        [apply Hallows | reflexivity]. }
    erewrite bind_run by exact H2.
    unfold result, after, calls. cbn [fst snd app].
    assert (H3 : (if key_in key [Key_Insert]
                  then allows "insert" else ret false) s = (Ok false, s, [])).
    { destruct (key_in key [Key_Insert]); [apply Hallows | reflexivity]. }
    erewrite bind_run by exact H3.
    reflexivity. }
  split; [exact Hrun |].
  rewrite Hrun. repeat constructor.
Qed.

(** ** The image cache *)

(** X14.  [_get_image] makes the icon of an image resource at most once: a
    resource that is not in the cache gets its icon created and stored under
    the resource and under its name, a resource in the cache gets the stored
    icon without any call, and asking again always hits the cache.  A string
    is converted by the [image] trait first and then treated the same. *)
Theorem get_image_cached (Image_trait : string -> Res PyImage) (o : Object)
    (r : ImageResource) (image : string + PyImage) :
  match image with
  | inl s => Image_trait s = Ok (image_resource r)
  | inr v => v = image_resource r
  end ->
  let first := _get_image Image_trait image o in
  exists i : nat,
    oresult first = Ok (Some i) /\
    editor (oafter first) = editor o /\
    image_resources (oafter first) !! resource_id r = Some i /\
    (image_resources o !! resource_id r = None ->
     i = icon r /\ ocalls first = [create_icon r] /\
     images (oafter first) !! name r = Some (icon r)) /\
    (forall j : nat,
        image_resources o !! resource_id r = Some j ->
        first = (Ok (Some j), o, [])) /\
    _get_image Image_trait image (oafter first)
    = (Ok (Some i), oafter first, []).
Proof.
  intros Himage first.
  assert (Hconv : forall o' : Object,
             _get_image Image_trait image o'
             = _get_image_converted (image_resource r) o').
  { intros o'. unfold _get_image. destruct image as [str|v].
    - rewrite obind_lift, Himage. reflexivity.
    - rewrite Himage. reflexivity. }
  assert (Hhit : forall (o' : Object) (j : nat),
             image_resources o' !! resource_id r = Some j ->
             _get_image_converted (image_resource r) o' = (Ok (Some j), o', [])).
  { intros o' j Hj. unfold _get_image_converted.
    rewrite obind_gets, Hj. reflexivity. }
  subst first. rewrite !Hconv.
  destruct (image_resources o !! resource_id r) as [j|] eqn:Hcache.
  - exists j. rewrite (Hhit o j Hcache). unfold oresult, oafter, ocalls.
    cbn [fst snd]. rewrite (Hhit o j Hcache).
    repeat split; try assumption; try discriminate.
    intros j' Hj'. congruence.
  - exists (icon r).
    assert (Hmiss : _get_image_converted (image_resource r) o
                    = (Ok (Some (icon r)),
                       with_images (<[name r := icon r]> (images o))
                         (with_image_resources
                            (<[resource_id r := icon r]> (image_resources o)) o),
                       [create_icon r])).
    { unfold _get_image_converted. rewrite obind_gets, Hcache.
      unfold _add_image.
      unfold obind, ocall, omodify, oret. reflexivity. }
    rewrite Hmiss. unfold oresult, oafter, ocalls. cbn [fst snd].
    split; [reflexivity |]. split; [reflexivity |].
    split; [apply lookup_insert_eq |].
    split; [intros _; repeat split; apply lookup_insert_eq |].
    split; [intros j Hj; discriminate |].
    apply Hhit. apply lookup_insert_eq.
Qed.

(** ** Preferences, once more *)

(** X15.  Restoring the preferences just saved changes nothing: every
    column already has its cached width, so no section is resized, no
    signal is emitted and no width is recorded, in either resize mode. *)
Theorem restore_saved_prefs_unchanged (depth : nat) (s : Editor) :
  restore_prefs depth (save_prefs s) s = (Ok tt, s, []).
Proof.
  unfold restore_prefs. rewrite save_prefs_lookup, bind_gets.
  set (n := length (columns (adapter s))).
  set (cws := map (columnWidth (control s)) (seq 0 n)).
  assert (Hlen : length cws = n)
    by (subst cws; rewrite length_map, length_seq; reflexivity).
  destruct (decide (n = length cws)); [| congruence].
  apply for_each_skip. intros column Hc. apply elem_of_seq in Hc.
  rewrite bind_lift. unfold getitem.
  assert (Hw : cws !! column = Some (columnWidth (control s) column)).
  { subst cws.
    change (map (columnWidth (control s)) ?l)
      with (columnWidth (control s) <$> l).
    rewrite list_lookup_fmap, lookup_seq_lt by lia. reflexivity. }
  rewrite Hw.
  unfold setColumnWidth, header_resizeSection, resizeSection, columnWidth.
  rewrite bind_gets.
  destruct (section_sizes (control s) !! column) as [w|]; [| reflexivity].
  change (default 0 (Some w)) with w.
  destruct (decide (w = w)); [reflexivity | contradiction].
Qed.

(** ** Without a factory *)

(** X17.  When the editor has no factory any more, a resize by the user is
    still recorded but no layout follows it, whereas laying out the columns,
    asking a column's size hint or scrolling to a row raises AttributeError
    before anything is changed or called. *)
Theorem without_factory (s : Editor) :
  factory s = None ->
  (forall depth : nat,
      resizeColumnsToContents depth s = (Raise AttributeError, s, [])) /\
  (forall column : nat,
      sizeHintForColumn column s = (Raise AttributeError, s, [])) /\
  (forall r : Z, _scroll_to_row_changed r s = (Raise AttributeError, s, [])) /\
  (forall (depth index : nat) (old new : Z),
      _is_resizing (control s) = false ->
      (index < length (default (replicate (length (columns (adapter s))) None)
                         (_user_widths (control s))))%nat ->
      columnResized (S depth) index old new s
      = (Ok tt, recorded index new s, [])).
Proof.
  intros Hf.
  assert (Hget : get_factory s = (Raise AttributeError, s, [])).
  { unfold get_factory. rewrite bind_gets, Hf. reflexivity. }
  split; [| split; [| split]].
  - intros depth. unfold resizeColumnsToContents, resizeColumnsToContents_with.
    rewrite bind_gets. erewrite bind_raise by exact Hget. reflexivity.
  - intros column. unfold sizeHintForColumn.
    erewrite bind_raise by exact Hget. reflexivity.
  - intros r. unfold _scroll_to_row_changed.
    erewrite bind_raise by exact Hget. reflexivity.
  - intros depth index old new Hr Hlt.
    rewrite columnResized_step, bind_gets, Hr. cbn [negb]. rewrite bind_gets.
    unfold recorded.
    destruct (_user_widths (control s)) as [w|] eqn:Hw.
    + rewrite bind_ret, bind_gets, Hw.
      change (default [] (Some w)) with w.
      change (default (replicate (length (columns (adapter s))) None) (Some w))
        with w in *.
      unfold setitem.
      destruct (decide (index < length w)%nat); [| contradiction].
      rewrite bind_lift. unfold write_user_widths. rewrite bind_modify.
      rewrite bind_gets. cbn [factory with_control]. rewrite Hf. reflexivity.
    + erewrite bind_run.
      2:{ rewrite bind_gets. unfold write_user_widths, modify. reflexivity. }
      unfold result, after, calls. cbn [fst snd app].
      rewrite bind_gets.
      change (default [] (_user_widths (control (with_control _ s))))
        with (replicate (length (columns (adapter s))) (@None Z)).
      change (default (replicate (length (columns (adapter s))) None) None)
        with (replicate (length (columns (adapter s))) (@None Z)) in *.
      unfold setitem.
      destruct (decide (index < length (replicate (length (columns (adapter s)))
                                          (@None Z)))%nat); [| contradiction].
      rewrite bind_lift. unfold write_user_widths. rewrite bind_modify.
      rewrite bind_gets. cbn [factory with_control]. rewrite Hf. reflexivity.
Qed.

(** ** Laying out twice *)

Lemma resized_enumerate_lookup_other (ws sizes : list Z) (c : nat) :
  ws !! c = None ->
  resized (enumerate ws) sizes !! c = sizes !! c.
Proof.
  induction ws as [|x ws IH] using rev_ind; intros Hc; [reflexivity |].
  rewrite resized_enumerate_snoc.
  apply lookup_ge_None in Hc. rewrite length_app in Hc. simpl in Hc.
  rewrite list_lookup_insert_ne by lia.
  apply IH. apply lookup_ge_None. lia.
Qed.

Lemma resized_enumerate_idempotent (ws sizes : list Z) :
  resized (enumerate ws) (resized (enumerate ws) sizes)
  = resized (enumerate ws) sizes.
Proof.
  apply list_eq. intros c.
  destruct (ws !! c) as [w|] eqn:Hw.
  - destruct (decide (c < length sizes)%nat) as [Hlt|Hge].
    + rewrite (resized_enumerate_lookup ws _ c w Hw)
        by (rewrite resized_length; exact Hlt).
      rewrite (resized_enumerate_lookup ws _ c w Hw Hlt). reflexivity.
    + rewrite !(proj2 (lookup_ge_None _ _));
        rewrite ?resized_length; try lia. reflexivity.
  - rewrite !resized_enumerate_lookup_other by exact Hw. reflexivity.
Qed.

(** X18.  With [auto_resize] off, laying out the columns a second time
    changes nothing: the widths computed from the same viewport, adapter and
    user widths are the ones the columns already have, and no signal
    reaches [columnResized]. *)
Theorem resizeColumnsToContents_idempotent (depth : nat) (s : Editor)
    (f : Factory) :
  factory s = Some f ->
  auto_resize f = false ->
  let s1 := after (resizeColumnsToContents (S depth) s) in
  resizeColumnsToContents (S depth) s1 = (Ok tt, s1, []).
Proof.
  intros Hf Ha s1. subst s1.
  rewrite (resizeColumnsToContents_run depth s f Hf Ha).
  unfold after. cbn [fst snd].
  set (s1 := with_control _ s).
  rewrite (resizeColumnsToContents_run depth s1 f Hf Ha).
  change (computed_widths s1) with (computed_widths s).
  change (section_sizes (control s1))
    with (resized (enumerate (computed_widths s)) (section_sizes (control s))).
  rewrite resized_enumerate_idempotent. reflexivity.
Qed.

(** ** Header clicks and the header's event filter *)

(** X19.  A click on a column header stores the event (row 0, that column)
    under [column_clicked].  In single-select mode the column becomes
    [selected_column], with no widget call inside a [_no_update] region; in
    multi-select mode nothing else changes and the widget is not called. *)
Theorem on_column_click_spec (o : Object) (f : Factory) (c : Z) :
  factory (editor o) = Some f ->
  let event := {| row := 0; column := c |} in
  let r := _on_column_click c o in
  oresult r = Ok tt /\
  event_traits (oafter r) !! "column_clicked"%string = Some event /\
  (multi_select f = true -> editor (oafter r) = editor o /\ ocalls r = []) /\
  (multi_select f = false ->
   selected_column (editor (oafter r)) = c /\
   (_no_update (editor o) = true -> ocalls r = [])).
Proof.
  intros Hf event r. subst r. unfold _on_column_click, set_event. fold event.
  rewrite obind_modify.
  change (String.eqb "column_clicked" "clicked") with false.
  change (String.eqb "column_clicked" "column_clicked") with true.
  cbv iota.
  set (o1 := with_event_traits
               (<["column_clicked"%string := event]> (event_traits o)) o).
  assert (Hev : event_traits o1 !! "column_clicked"%string = Some event)
    by apply lookup_insert_eq.
  unfold _column_clicked_changed.
  erewrite obind_run by (apply (on_editor_factory o1 f); exact Hf).
  unfold oresult, oafter, ocalls. cbn [fst snd app].
  destruct (multi_select f) eqn:Hm; cbn [negb].
  - repeat split; try discriminate; try exact Hev.
  - erewrite obind_run.
    2:{ unfold get_event. rewrite obind_gets, Hev. reflexivity. }
    destruct (set_selected_column_state c (editor o) f Hf) as (Hr & Ha & Hc).
    erewrite (on_editor_state _ o1) by (first [exact Hr | exact Ha]).
    unfold oresult, oafter, ocalls. cbn [fst snd app].
    repeat split; try discriminate; try exact Hev.
    intros Hu.
    change (calls (set_selected_column _ _))
      with (calls (set_selected_column c (editor o))).
    rewrite (Hc Hu). reflexivity.
Qed.

(** X20.  The header's event filter handles context-menu events and nothing
    else: any other event is reported as not handled and changes nothing.
    A context-menu event over a column without a menu is reported as handled
    after [column_right_clicked] has been set; when the column's menu raises,
    the exception leaves the filter instead of a result. *)
Theorem eventFilter_spec (s : Editor) (pos : Z * Z) :
  (forall code : Z, eventFilter (OtherEvent code) pos s = (Ok false, s, [])) /\
  (get_column_menu (adapter s) (-1) (columnAt (control s) pos.1) = None ->
   eventFilter ContextMenu pos s
   = (Ok true,
      with_column_right_clicked
        (Some {| row := 0; column := columnAt (control s) pos.1 |}) s,
      [])) /\
  (forall (menu : Menu) (e : Exn),
      get_column_menu (adapter s) (-1) (columnAt (control s) pos.1)
      = Some menu ->
      exec_raises menu = Some e ->
      result (eventFilter ContextMenu pos s) = Raise e).
Proof.
  split; [| split].
  - intros code. reflexivity.
  - intros Hmenu. unfold eventFilter.
    erewrite bind_run.
    2:{ unfold _on_column_context_menu. rewrite !bind_gets, Hmenu.
        reflexivity. }
    reflexivity.
  - intros menu e Hmenu Hexec. unfold eventFilter.
    destruct (on_column_context_menu_raising s pos menu e Hmenu Hexec)
      as [Hres _].
    unfold bind, result in *.
    destruct (_on_column_context_menu pos s) as [[[[]|e'] s1] t1];
      simpl in *; congruence.
Qed.

End MoreProperties.

(** * Further examples at work *)

Import ObjectExample.

Lemma selected_changed_selects_first_witness :
  let s := an_editor (Some (the_factory false false))
             ["bob"; "ann"; "bob"]%string None in
  _selected_changed (imports := quiet) (Some "bob"%string) s
  = (Ok tt, s, [select 0 0 ClearAndSelect_Rows; scrollTo 0 0 EnsureVisible]).
Proof.
  intros s.
  apply (selected_changed_selects_first (imports := quiet) s
           (the_factory false false) "bob"%string 0);
    [reflexivity | reflexivity | reflexivity | intros j y Hj; lia].
Defined.

Lemma row_selection_round_trip_witness :
  let s := the_editor false false [100; 100] [1; 2] in
  let s' := after (_on_row_selection (imports := quiet) s) in
  selected s' = Some "bob"%string /\
  _selected_changed (imports := quiet) (selected s') s'
  = (Ok tt, s', [select 1 0 ClearAndSelect_Rows; scrollTo 1 0 EnsureVisible]).
Proof.
  intros s s'.
  destruct (row_selection_round_trip (imports := quiet) s
              (the_factory false false) 1 [2] "bob"%string)
    as (Hsel & _ & Hagain); try reflexivity.
  - apply (bool_decide_unpack _). vm_compute. exact I.
  - split; [exact Hsel | exact Hagain].
Defined.

Lemma update_editor_witness :
  let o := an_object (the_editor false false [100; 100] []) in
  update_editor (imports := quiet) o
  = (Ok tt, o, [beginResetModel; endResetModel; base_call clearSelection]).
Proof.
  intros o.
  destruct (update_editor_spec (imports := quiet) o (the_factory false false)
              eq_refl) as (_ & Hnone & _).
  apply Hnone; reflexivity.
Defined.

Lemma multi_selection_handlers_witness :
  let s := the_editor true false [100; 100] [] in
  _multi_selected_changed ["cy"; "ann"]%string s
  = (Ok tt, s, [clearSelection; select_selection [2; 0] Select_Rows]) /\
  _multi_selected_items_changed
    {| index := 0; added := ["cy"]; removed := ["ann"; "bob"] |}%string s
  = (Ok tt, s,
     [select 0 0 Deselect_Rows; select 1 0 Deselect_Rows;
      select 2 0 Select_Rows]).
Proof.
  intros s.
  destruct (multi_selection_handlers s) as (Hchanged & Hitems & _).
  split.
  - apply (Hchanged ["cy"; "ann"]%string [2; 0]); [reflexivity |].
    repeat constructor.
  - apply (Hitems {| index := 0; added := ["cy"]; removed := ["ann"; "bob"] |}%string
             [2] [0; 1]); [reflexivity | |]; repeat constructor.
Defined.

Lemma selected_column_changed_witness :
  let s := the_editor false false [100; 100] [] in
  _selected_column_changed 1 s
  = (Ok tt, s, [select 0 1 ClearAndSelect_Rows; scrollTo 0 1 EnsureVisible]) /\
  _selected_column_changed (-1) s = (Ok tt, s, []).
Proof.
  intros s. split.
  - apply (proj1 (selected_column_changed_spec s (the_factory false false) 1
                    eq_refl eq_refl)). lia.
  - apply (proj2 (selected_column_changed_spec s (the_factory false false) (-1)
                    eq_refl eq_refl)). lia.
Defined.

Lemma on_click_witness :
  let o := an_object (the_editor false false [100; 100] []) in
  let r := _on_click (1, 0) o in
  oresult r = Ok tt /\
  selected_row (editor (oafter r)) = 1 /\
  selected_column (editor (oafter r)) = 0 /\
  ocalls r
  = [base_call (select 1 0 ClearAndSelect_Rows);
     base_call (scrollTo 1 0 EnsureVisible);
     base_call (select 1 0 ClearAndSelect_Rows);
     base_call (scrollTo 1 0 EnsureVisible)].
Proof.
  intros o r.
  destruct (on_click_spec o (the_factory false false) (1, 0)
              eq_refl) as (Hres & _ & _ & Hsingle & _).
  destruct (Hsingle eq_refl) as (Hrow & Hcol & _).
  split; [exact Hres |]. split; [exact Hrow |]. split; [exact Hcol |].
  reflexivity.
Defined.

Lemma adapter_columns_updated_witness :
  let o := an_object (an_editor (Some (the_factory false false)) items
                        (Some [Some 120])) in
  _user_widths
    (control (editor (oafter (_adapter_columns_updated (imports := quiet) o))))
  = None.
Proof.
  intros o.
  destruct (adapter_columns_updated_fits (imports := quiet) o)
    as (_ & _ & _ & Hdrop).
  apply Hdrop. intros Hfit. specialize (Hfit _ eq_refl). discriminate.
Defined.

Lemma columnResized_records_one_witness :
  let s := an_editor (Some (the_factory false true)) items
             (Some [Some 120; None]) in
  let o := columnResized (imports := quiet) 2 1 100 150 s in
  result o = Ok tt /\
  _user_widths (control (after o)) = Some [Some 120; Some 150].
Proof.
  intros s o.
  destruct (columnResized_records_one (imports := quiet) 0 1 100 150 s
              (the_factory false true)) as (Hres & _ & _);
    [reflexivity | reflexivity | | simpl; lia |].
  - intros w Hw. injection Hw as <-. reflexivity.
  - split; [exact Hres | reflexivity].
Defined.

Lemma columnResized_out_of_range_witness :
  let s := the_editor false false [100; 100; 100] [] in
  let o := columnResized (imports := quiet) 1 2 100 150 s in
  result o = Raise IndexError /\
  _user_widths (control (after o)) = Some [None; None].
Proof.
  intros s o. subst o.
  rewrite (columnResized_out_of_range (imports := quiet) 0 2 100 150 s eq_refl)
    by (simpl; lia).
  split; reflexivity.
Defined.

Lemma keyPressEvent_enter_witness :
  let s := the_editor false false [100; 100] [] in
  keyPressEvent (imports := quiet) Key_Enter s = (Ok tt, s, []) /\
  keyPressEvent (imports := quiet) Key_Return
    (with_selected_row 2 s)
  = (Ok tt, with_selected_row 2 s, [accept; edit 2 0]).
Proof.
  intros s. split.
  - exact (keyPressEvent_enter_spec (imports := quiet) s
             (the_factory false false) Key_Enter eq_refl eq_refl).
  - exact (keyPressEvent_enter_spec (imports := quiet) (with_selected_row 2 s)
             (the_factory false false) Key_Return eq_refl eq_refl).
Defined.

Lemma keyPressEvent_insert_witness :
  let s := the_editor true false [100; 100] [2; 0; 1] in
  calls (keyPressEvent (imports := quiet) Key_Insert s)
  = [accept; insertRow 0; setCurrentIndex 0 0] /\
  calls (keyPressEvent (imports := quiet) Key_Insert
           (the_editor true false [100; 100] []))
  = [accept; insertRow 3; setCurrentIndex 3 0].
Proof.
  intros s.
  assert (Hop : "insert"%string ∈ operations (the_factory true false))
    by (apply (bool_decide_unpack _); vm_compute; exact I).
  split.
  - rewrite (proj1 (keyPressEvent_insert_spec (imports := quiet) s
                      (the_factory true false) eq_refl eq_refl Hop)).
    reflexivity.
  - rewrite (proj1 (keyPressEvent_insert_spec (imports := quiet)
                      (the_editor true false [100; 100] [])
                      (the_factory true false) eq_refl eq_refl Hop)).
    reflexivity.
Defined.

Lemma keyPressEvent_read_only_witness :
  let s := an_editor (Some read_only) items None in
  keyPressEvent (imports := quiet) Key_Delete (with_selected_row 1 s)
  = (Ok tt, with_selected_row 1 s, [QTableView_keyPressEvent Key_Delete]).
Proof.
  intros s.
  exact (proj1 (keyPressEvent_read_only (imports := quiet)
                  (with_selected_row 1 s) read_only Key_Delete
                  eq_refl eq_refl)).
Defined.

Lemma get_image_cached_witness :
  let o := an_object (the_editor false false [100; 100] []) in
  let first := _get_image known_images (inl "red_ball"%string) o in
  oresult first = Ok (Some 42%nat) /\
  ocalls first = [create_icon red_ball] /\
  _get_image known_images (inr (image_resource red_ball)) (oafter first)
  = (Ok (Some 42%nat), oafter first, []).
Proof.
  intros o first.
  destruct (get_image_cached known_images o red_ball (inl "red_ball"%string)
              eq_refl) as (i & Hres & _ & _ & Hmiss & _ & _).
  destruct (Hmiss eq_refl) as (Hi & Hcalls & _). subst i.
  split; [exact Hres |]. split; [exact Hcalls |].
  destruct (get_image_cached known_images (oafter first) red_ball
              (inr (image_resource red_ball)) eq_refl)
    as (_ & _ & _ & _ & _ & Hhit & _).
  apply Hhit. reflexivity.
Defined.

Lemma without_factory_witness :
  let s := an_editor None items None in
  resizeColumnsToContents (imports := quiet) 1 s
  = (Raise AttributeError, s, []) /\
  _user_widths
    (control (after (columnResized (imports := quiet) 1 0 100 150 s)))
  = Some [Some 150; None] /\
  section_sizes
    (control (after (columnResized (imports := quiet) 1 0 100 150 s)))
  = [100; 100].
Proof.
  intros s.
  destruct (without_factory (imports := quiet) s eq_refl)
    as (Hlayout & _ & _ & Hrecord).
  split; [apply Hlayout |].
  rewrite (Hrecord 0%nat 0%nat 100 150 eq_refl) by (simpl; lia).
  split; reflexivity.
Defined.

Lemma resizeColumnsToContents_idempotent_witness :
  let s := the_editor false false [100; 100] [] in
  let s1 := after (resizeColumnsToContents (imports := quiet) 1 s) in
  section_sizes (control s1) = [80; 30] /\
  resizeColumnsToContents (imports := quiet) 1 s1 = (Ok tt, s1, []).
Proof.
  intros s s1. split; [reflexivity |].
  exact (resizeColumnsToContents_idempotent (imports := quiet) 0 s
           (the_factory false false) eq_refl eq_refl).
Defined.

Lemma on_column_click_witness :
  let o := an_object (the_editor false false [100; 100] []) in
  let r := _on_column_click 1 o in
  oresult r = Ok tt /\
  event_traits (oafter r) !! "column_clicked"%string
  = Some {| row := 0; column := 1 |} /\
  selected_column (editor (oafter r)) = 1.
Proof.
  intros o r.
  destruct (on_column_click_spec o (the_factory false false) 1 eq_refl)
    as (Hres & Hev & _ & Hsingle).
  destruct (Hsingle eq_refl) as (Hcol & _).
  split; [exact Hres |]. split; [exact Hev | exact Hcol].
Defined.

Lemma eventFilter_witness :
  let s := the_editor false false [100; 100] [] in
  eventFilter (OtherEvent 2) (105, 5) s = (Ok false, s, []) /\
  result (eventFilter ContextMenu (105, 5) s) = Ok true /\
  column_right_clicked (after (eventFilter ContextMenu (105, 5) s))
  = Some {| row := 0; column := 1 |}.
Proof.
  intros s.
  destruct (eventFilter_spec s (105, 5)) as (Hother & Hclick & _).
  split; [apply Hother |].
  rewrite (Hclick eq_refl). split; reflexivity.
Defined.
